(** * Plan reconciliation of the provider server (package proto6server)

    A shallow embedding of [internal/proto6server/serve.go] and
    [internal/fwschema/diagnostics.go], with the properties the
    specification states about them.

    Go strings are byte sequences and are compared bytewise, which is
    what [string] with [String.compare] gives.  Functions of other
    packages are taken as parameters; the functions of the two files are
    transcribed statement by statement.

    Part I holds the embedding, Part II the properties. *)

From Stdlib Require Import List String Ascii ZArith Bool Lia.
From Stdlib Require Import Permutation Sorted OrderedTypeEx DecimalString.
Import ListNotations.

Set Implicit Arguments.
Set Warnings "-register-all".

(** * Part I: the embedding *)

(** ** Go string comparison *)

Module GoString.

(** [s < t] on Go strings. *)
Definition lt (s t : string) : Prop := String.ltb s t = true.

(** [strings.Contains(s, sub)], as a proposition. *)
Definition Contains (s sub : string) : Prop :=
  exists pre post, s = (pre ++ sub ++ post)%string.

End GoString.

(** ** sort.Slice

    [sort.Slice(x, less)] reorders [x] in place so that it is sorted by
    [less]; the order of elements that [less] does not separate is not
    specified.  [IsSorted] is the check of [sort.SliceIsSorted]: no
    element is less than its predecessor. *)

Module sort.

Section Contract.
Variable A : Type.
Variable less : A -> A -> bool.

Definition IsSorted (x : list A) : Prop :=
  Sorted (fun a b => less b a = false) x.

Definition Sorts (Slice : list A -> list A) : Prop :=
  forall x, Permutation x (Slice x) /\ IsSorted (Slice x).

(** The insertion sort the runtime uses on short slices: one function
    that meets the contract, used to run the examples. *)
Fixpoint insert (a : A) (x : list A) : list A :=
  match x with
  | [] => [a]
  | b :: x' => if less a b then a :: b :: x' else b :: insert a x'
  end.

Fixpoint insertionSort (x : list A) : list A :=
  match x with
  | [] => []
  | a :: x' => insert a (insertionSort x')
  end.

End Contract.

End sort.

(** ** normaliseRequiresReplace (serve.go, lines 570-596) *)

Module Normalise.

Section WithPath.
(** [*tftypes.AttributePath] with its methods [String] and [Equal]. *)
Variable AttributePath : Type.
Variable AttributePath_String : AttributePath -> string.
Variable AttributePath_Equal : AttributePath -> AttributePath -> bool.
(** [sort.Slice] at the closure [less] below. *)
Variable sort_Slice : list AttributePath -> list AttributePath.

(** [func(i, j int) bool { return rs[i].String() < rs[j].String() }] *)
Definition less (a b : AttributePath) : bool :=
  String.ltb (AttributePath_String a) (AttributePath_String b).

(** The deduplication loop.  [prev] is [ret[j-1]]; the result is what the
    remaining iterations store from [ret[j]] on. *)
Fixpoint dedup (prev : AttributePath) (rs : list AttributePath)
  : list AttributePath :=
  match rs with
  | [] => []
  | r :: rs' =>
      if AttributePath_Equal r prev then dedup prev rs'
      else r :: dedup r rs'
  end.

Definition normaliseRequiresReplace (rs : list AttributePath)
  : list AttributePath :=
  if (List.length rs <? 2)%nat then rs
  else
    match sort_Slice rs with
    | [] => []
    | r0 :: rs' => r0 :: dedup r0 rs'
    end.

(** The specification's wording of deduplication: an entry is kept when
    no entry before it ([seen]) equals it, and dropped otherwise. *)
Fixpoint keepFirst (seen rs : list AttributePath) : list AttributePath :=
  match rs with
  | [] => []
  | r :: rs' =>
      if existsb (AttributePath_Equal r) seen then keepFirst (r :: seen) rs'
      else r :: keepFirst (r :: seen) rs'
  end.

(** The data model's rule on the paths of [rs]: two paths are equal
    exactly when their string renderings are. *)
Definition EqualByString (rs : list AttributePath) : Prop :=
  forall a b, In a rs -> In b rs ->
    (AttributePath_Equal a b = true <->
     AttributePath_String a = AttributePath_String b).

(** Ascending by rendering, without repetition. *)
Definition Ascending (rs : list AttributePath) : Prop :=
  StronglySorted
    (fun a b => GoString.lt (AttributePath_String a) (AttributePath_String b))
    rs.

(** No two entries are equal paths. *)
Definition Deduplicated (rs : list AttributePath) : Prop :=
  ForallOrdPairs
    (fun a b => AttributePath_Equal a b = false /\
                AttributePath_Equal b a = false) rs.

(** Entrywise path equality of two lists. *)
Definition EqualLists (xs ys : list AttributePath) : Prop :=
  Forall2 (fun a b => AttributePath_Equal a b = true) xs ys.

End WithPath.

End Normalise.

(** ** Go errors

    The two sentinel errors the planning code tests for, errors made by
    [errors.New] or [fmt.Errorf] without [%w], and errors that wrap
    another with [%w].  [==] on error values is identity, which is
    equality of constructors here; [errors.Is] also looks through the
    wrapping. *)

Module errors.

Inductive error : Type :=
| ErrInvalidStep                 (* tftypes.ErrInvalidStep *)
| ErrPathInsideAtomicAttribute   (* tfsdk.ErrPathInsideAtomicAttribute *)
| errorString (text : string)
| wrapError (text : string) (err : error).

Fixpoint eqb (a b : error) : bool :=
  match a, b with
  | ErrInvalidStep, ErrInvalidStep => true
  | ErrPathInsideAtomicAttribute, ErrPathInsideAtomicAttribute => true
  | errorString s, errorString t => String.eqb s t
  | wrapError s a', wrapError t b' => String.eqb s t && eqb a' b'
  | _, _ => false
  end.

(** [errors.Is(err, target)] *)
Fixpoint Is (err target : error) : bool :=
  eqb err target ||
  match err with
  | wrapError _ err' => Is err' target
  | _ => false
  end.

(** [err.Error()].  The texts of the two sentinels are declared in their
    packages, outside the sources, and are taken as [sentinelText]. *)
Fixpoint Error (sentinelText : error -> string) (err : error) : string :=
  match err with
  | errorString text => text
  | wrapError text err' => text ++ Error sentinelText err'
  | _ => sentinelText err
  end.

End errors.

(** ** Package diag *)

Module diag.

Inductive Severity : Type := SeverityError | SeverityWarning.

(** Modelled from the spec: the package is not among the sources; section
    3 gives a diagnostic as severity, summary, detail and an optional path,
    and the ledger as the ordered sequence of diagnostics. *)
Record Diagnostic (Path : Type) : Type := {
  Severity_ : Severity;
  Summary : string;
  Detail : string;
  Path_ : option Path
}.

Definition Diagnostics (Path : Type) : Type := list (Diagnostic Path).

Section WithPath.
Variable Path : Type.

(** Modelled from the spec: an error diagnostic that carries no path. *)
Definition NewErrorDiagnostic (summary detail : string) : Diagnostic Path :=
  {| Severity_ := SeverityError; Summary := summary; Detail := detail;
     Path_ := None |}.

(** Modelled from the spec: [Append] of section 4.4, order-preserving and
    without deduplication. *)
Definition Append (diags in_ : Diagnostics Path) : Diagnostics Path :=
  diags ++ in_.

(** Modelled from the spec: [AddError] appends one error diagnostic. *)
Definition AddError (diags : Diagnostics Path) (summary detail : string)
  : Diagnostics Path :=
  Append diags [NewErrorDiagnostic summary detail].

Definition isError (d : Diagnostic Path) : bool :=
  match Severity_ d with SeverityError => true | SeverityWarning => false end.

(** Modelled from the spec: [HasError] is true iff some entry has severity
    error. *)
Definition HasError (diags : Diagnostics Path) : bool :=
  existsb isError diags.

End WithPath.

End diag.

(** ** Package tftypes: the data *)

Module tftypes.

(** Modelled from the spec: the value types behind the attribute variants
    of section 3 (primitive, collection of an element type, object with
    named attributes). *)
Inductive Type_ : Type :=
| String
| Number
| Bool
| List (ElementType : Type_)
| Set_ (ElementType : Type_)
| Map (ElementType : Type_)
| Object (AttributeTypes : list (string * Type_)).

(** Modelled from the spec: a value is a typed cell that is null, unknown
    or known, and a known value of a collection or object holds the values
    of its children ([NewValue(typ, val)]).  A number is kept as an
    integer; no property looks inside one. *)
Inductive Value : Type :=
| NewValue (typ : Type_) (value : Content)
with Content : Type :=
| null
| UnknownValue
| str (s : string)
| num (n : Z)
| boolean (b : bool)
| slice (elems : list Value)
| dict (elems : list (string * Value)).

Definition Type_of (v : Value) : Type_ :=
  match v with NewValue typ _ => typ end.

Definition IsNull (v : Value) : bool :=
  match v with NewValue _ null => true | _ => false end.

Definition IsKnown (v : Value) : bool :=
  match v with NewValue _ UnknownValue => false | _ => true end.

(** The four kinds of step of the test table of
    [string_attribute_test.go]. *)
Inductive AttributePathStep : Type :=
| AttributeName (name : string)
| ElementKeyInt (index : Z)
| ElementKeyString (key : string)
| ElementKeyValue (v : Value).

(** [path.Steps()] *)
Definition AttributePath : Type := list AttributePathStep.

End tftypes.

(** ** Package fwschema (diagnostics.go) *)

Module fwschema.

Definition LF : string := String (ascii_of_nat 10) EmptyString.

Section WithPath.
(** [path.Path] and its [String] method. *)
Variable Path : Type.
Variable Path_String : Path -> string.
(** The verb [%q] of [fmt.Sprintf] on a string: [strconv.Quote]. *)
Variable strconv_Quote : string -> string.

Definition AttributeMissingAttributeTypesDiag (attributePath : Path)
  : diag.Diagnostic Path :=
  diag.NewErrorDiagnostic Path
    "Invalid Attribute Implementation"
    ("When validating the schema, an implementation issue was found. " ++
     "This is always an issue with the provider and should be reported to the provider developers." ++ LF ++ LF ++
     (strconv_Quote (Path_String attributePath) ++
      " is missing the AttributeTypes or CustomType field on an object Attribute. ") ++
     "One of these fields is required to prevent other unexpected errors or panics.").

Definition AttributeMissingElementTypeDiag (attributePath : Path)
  : diag.Diagnostic Path :=
  diag.NewErrorDiagnostic Path
    "Invalid Attribute Implementation"
    ("When validating the schema, an implementation issue was found. " ++
     "This is always an issue with the provider and should be reported to the provider developers." ++ LF ++ LF ++
     (strconv_Quote (Path_String attributePath) ++
      " is missing the CustomType or ElementType field on a collection Attribute. ") ++
     "One of these fields is required to prevent other unexpected errors or panics.").

End WithPath.

End fwschema.

(** ** Package metaschema: StringAttribute *)

Module metaschema.

(** Modelled from the spec: the type of an attribute, named as the error
    messages name it; the built-in string type, or a custom type set on
    the attribute. *)
Inductive attr_Type : Type :=
| StringType
| CustomType_ (name : string).

Definition attr_Type_String (t : attr_Type) : string :=
  match t with
  | StringType => "basetypes.StringType"
  | CustomType_ name => name
  end.

(** Modelled from the spec: the primitive string attribute with the fields
    section 3 lists and the test file sets. *)
Record StringAttribute : Type := {
  CustomType : option attr_Type;
  Required : bool;
  Optional : bool;
  Sensitive : bool;
  Description : string;
  MarkdownDescription : string;
  DeprecationMessage : string
}.

(** [metaschema.StringAttribute{}] *)
Definition zero : StringAttribute :=
  {| CustomType := None; Required := false; Optional := false;
     Sensitive := false; Description := EmptyString;
     MarkdownDescription := EmptyString;
     DeprecationMessage := EmptyString |}.

(** Modelled from the spec: [GetType] is the custom type if set, else the
    type of the variant. *)
Definition GetType (a : StringAttribute) : attr_Type :=
  match CustomType a with
  | Some t => t
  | None => StringType
  end.

(** The verb [%T] on a step: the name of its Go type. *)
Definition stepTypeName (step : tftypes.AttributePathStep) : string :=
  match step with
  | tftypes.AttributeName _ => "tftypes.AttributeName"
  | tftypes.ElementKeyInt _ => "tftypes.ElementKeyInt"
  | tftypes.ElementKeyString _ => "tftypes.ElementKeyString"
  | tftypes.ElementKeyValue _ => "tftypes.ElementKeyValue"
  end.

(** Modelled from the spec: [ApplyTerraform5AttributePathStep] of the
    attribute is not among the sources.  Section 4.1: a primitive
    attribute accepts no step and fails for any input, and the message
    names the step type and the attribute type, in the words the test
    table expects.  The first component is the child ([None] for Go's
    [nil]), the second the error. *)
Definition ApplyTerraform5AttributePathStep
  (a : StringAttribute) (step : tftypes.AttributePathStep)
  : option attr_Type * option errors.error :=
  (None,
   Some (errors.errorString
           ("cannot apply AttributePathStep " ++ stepTypeName step ++
            " to " ++ attr_Type_String (GetType a)))).

End metaschema.

(** ** Package tfsdk: what the planning code uses of it *)

Module tfsdk.

(** Modelled from the spec: the flags of an attribute (section 3).  The
    planning code reads [Computed] only. *)
Record Attribute : Type := {
  Required : bool;
  Optional : bool;
  Computed : bool;
  Sensitive : bool
}.

(** [tfsdk.Config], [tfsdk.State] and [tfsdk.Plan] are three structs of
    the same two fields, a schema and the raw value. *)
Record Data (Schema : Type) : Type := {
  Schema_ : Schema;
  Raw : tftypes.Value
}.

End tfsdk.

(** ** Package proto6server (serve.go) *)

Module proto6server.
Import errors.

(** [[]*tftypes.AttributePath] and the diagnostics over such paths. *)
Definition Paths : Type := list tftypes.AttributePath.
Definition Diagnostics : Type := diag.Diagnostics tftypes.AttributePath.

(** The two types of other packages the code only passes around:
    [tfsdk.Schema] and [tfprotov6.DynamicValue]. *)
Class Types : Type := {
  Schema : Type;
  DynamicValue : Type
}.

Section WithTypes.
Context {T : Types}.

(** [ModifySchemaPlanRequest] and [tfsdk.ModifyResourcePlanRequest] have
    the same fields.  [ProviderMeta] is [None] for the zero struct the
    code leaves when there is no provider-meta schema. *)
Record ModifyPlanRequest : Type := {
  Config : tfsdk.Data Schema;
  State : tfsdk.Data Schema;
  Plan : tfsdk.Data Schema;
  ProviderMeta : option (tfsdk.Data Schema)
}.

(** [ModifySchemaPlanResponse] and [tfsdk.ModifyResourcePlanResponse]. *)
Record ModifyPlanResponse : Type := {
  Plan_ : tfsdk.Data Schema;
  RequiresReplace_ : Paths;
  Diagnostics_ : Diagnostics
}.

(** [tfsdk.Resource]; [ModifyPlan] is [Some] when the resource is a
    [tfsdk.ResourceWithModifyPlan].  The method fills the response it is
    handed. *)
Record Resource : Type := {
  ModifyPlan :
    option (ModifyPlanRequest -> ModifyPlanResponse -> ModifyPlanResponse)
}.

(** [tfsdk.ResourceType] *)
Record ResourceType : Type := {
  GetSchema : Schema * Diagnostics;
  NewResource : Resource * Diagnostics
}.

(** [Server]: the two methods of [s.FrameworkServer] the code calls. *)
Record Server : Type := {
  FrameworkServer_ResourceType : string -> ResourceType * Diagnostics;
  FrameworkServer_ProviderMetaSchema : option Schema * Diagnostics
}.

(** [tfprotov6.PlanResourceChangeRequest]; [ProviderMeta] is the one
    pointer the code tests for [nil]. *)
Record PlanResourceChangeRequest : Type := {
  TypeName : string;
  PriorState : DynamicValue;
  ProposedNewState : DynamicValue;
  Config_ : DynamicValue;
  ProviderMeta_ : option DynamicValue
}.

Record planResourceChangeResponse : Type := {
  PlannedState : option DynamicValue;
  Diagnostics__ : Diagnostics;
  RequiresReplace : Paths;
  PlannedPrivate : list Byte.byte
}.

(** The functions of other packages and files the code calls. *)
Class Library : Type := {
  (* tfsdk *)
  Schema_TerraformType : Schema -> tftypes.Type_;
  Schema_AttributeAtPath :
    Schema -> tftypes.AttributePath -> tfsdk.Attribute * option error;
  (* tftypes *)
  Value_Equal : tftypes.Value -> tftypes.Value -> bool;
  WalkAttributePath :
    tftypes.Value -> tftypes.AttributePath ->
    tftypes.Value * tftypes.AttributePath * option error;
  Transform :
    tftypes.Value ->
    (tftypes.AttributePath -> tftypes.Value ->
     option tftypes.Value * option error) ->
    tftypes.Value + error;
  AttributePath_Equal : tftypes.AttributePath -> tftypes.AttributePath -> bool;
  AttributePath_String : tftypes.AttributePath -> string;
  (* tfprotov6 *)
  DynamicValue_Unmarshal :
    DynamicValue -> tftypes.Type_ -> tftypes.Value + error;
  NewDynamicValue : tftypes.Type_ -> tftypes.Value -> DynamicValue + error;
  (* sort, at the closure of normaliseRequiresReplace *)
  sort_Slice : Paths -> Paths;
  (* errors *)
  sentinelText : error -> string;
  (* schema_plan_modification.go *)
  SchemaModifyPlan :
    Schema -> ModifyPlanRequest -> ModifyPlanResponse -> ModifyPlanResponse
}.

Context {L : Library}.

(** *** markComputedNilsAsUnknown (lines 236-269)

    The closure the function returns, as a function of [path] and [val].
    In the result [None] stands for the zero [tftypes.Value{}]. *)

(** Lines 252-267, reached when the config has no value to keep: the
    schema decides. *)
Definition markBySchema
  (resourceSchema : Schema) (path : tftypes.AttributePath)
  (val : tftypes.Value) : option tftypes.Value * option error :=
  match Schema_AttributeAtPath resourceSchema path with
  | (_, Some err) =>
      if Is err ErrPathInsideAtomicAttribute then
        (* ignore attributes/elements inside schema.Attributes, they have
           no schema of their own *)
        (Some val, None)
      else
        (None,
         Some (wrapError "couldn't find attribute in resource schema: " err))
  | (attribute, None) =>
      if negb (tfsdk.Computed attribute) then (Some val, None)
      else
        (Some (tftypes.NewValue (tftypes.Type_of val) tftypes.UnknownValue),
         None)
  end.

Definition markComputedNilsAsUnknown
  (config : tftypes.Value) (resourceSchema : Schema)
  (path : tftypes.AttributePath) (val : tftypes.Value)
  : option tftypes.Value * option error :=
  (* we are only modifying attributes, not the entire resource *)
  if (List.length path <? 1)%nat then (Some val, None)
  else
    let '(configVal, _, err) := WalkAttributePath config path in
    match err with
    | Some ErrInvalidStep => markBySchema resourceSchema path val
    | Some err => (Some val, Some err)
    | None =>
        if negb (tftypes.IsNull configVal) then (Some val, None)
        else markBySchema resourceSchema path val
    end.

(** *** normaliseRequiresReplace, at the library's paths *)
Definition normaliseRequiresReplace (rs : Paths) : Paths :=
  Normalise.normaliseRequiresReplace AttributePath_Equal sort_Slice rs.

(** *** The planning passes, as the code's comments divide them *)
Inductive Pass : Type :=
| MarkUnknown (plan : tftypes.Value)
| AttributePlanModification (req : ModifyPlanRequest)
| ResourcePlanModification (req : ModifyPlanRequest).

(** The state [planResourceChange] works on: the response it fills and,
    for the statements about order, the passes it has started. *)
Record St : Type := {
  resp : planResourceChangeResponse;
  passes : list Pass
}.

(** A computation returns [None] once the function has returned. *)
Definition M (A : Type) : Type := St -> option A * St.

Definition ret {A : Type} (a : A) : M A := fun st => (Some a, st).

Definition bind {A B : Type} (m : M A) (k : A -> M B) : M B :=
  fun st =>
    match m st with
    | (Some a, st') => k a st'
    | (None, st') => (None, st')
    end.

(** Go's [return] in the middle of the function. *)
Definition return_ {A : Type} : M A := fun st => (None, st).

Definition get_resp : M planResourceChangeResponse :=
  fun st => (Some (resp st), st).

Definition set_resp (r : planResourceChangeResponse) : M unit :=
  fun st => (Some tt, {| resp := r; passes := passes st |}).

(** Note in the state that a pass starts.  The code has no such record;
    it is kept so that the order of the passes can be stated. *)
Definition start (p : Pass) : M unit :=
  fun st => (Some tt, {| resp := resp st; passes := passes st ++ [p] |}).

End WithTypes.

Declare Scope go_scope.
Delimit Scope go_scope with go.
Notation "x <- m ;; k" := (bind m (fun x => k))
  (at level 61, m at next level, right associativity) : go_scope.
Notation "m ;; k" := (bind m (fun _ => k))
  (at level 61, right associativity) : go_scope.


Section Plan.
Context {T : Types} {L : Library}.
Local Open Scope go_scope.

(** [err.Error()] *)
Definition Error (err : error) : string := errors.Error sentinelText err.

(** [resp.Diagnostics.Append(diags...)] *)
Definition Diagnostics_Append (diags : Diagnostics) : M unit :=
  r <- get_resp ;;
  set_resp {| PlannedState := PlannedState r;
              Diagnostics__ := diag.Append (Diagnostics__ r) diags;
              RequiresReplace := RequiresReplace r;
              PlannedPrivate := PlannedPrivate r |}.

(** [resp.Diagnostics.AddError(summary, detail)] *)
Definition Diagnostics_AddError (summary detail : string) : M unit :=
  r <- get_resp ;;
  set_resp {| PlannedState := PlannedState r;
              Diagnostics__ := diag.AddError (Diagnostics__ r) summary detail;
              RequiresReplace := RequiresReplace r;
              PlannedPrivate := PlannedPrivate r |}.

(** [resp.Diagnostics = diags] *)
Definition set_Diagnostics (diags : Diagnostics) : M unit :=
  r <- get_resp ;;
  set_resp {| PlannedState := PlannedState r;
              Diagnostics__ := diags;
              RequiresReplace := RequiresReplace r;
              PlannedPrivate := PlannedPrivate r |}.

(** [resp.PlannedState = ps] *)
Definition set_PlannedState (ps : option DynamicValue) : M unit :=
  r <- get_resp ;;
  set_resp {| PlannedState := ps;
              Diagnostics__ := Diagnostics__ r;
              RequiresReplace := RequiresReplace r;
              PlannedPrivate := PlannedPrivate r |}.

(** [resp.RequiresReplace = rs] *)
Definition set_RequiresReplace (rs : Paths) : M unit :=
  r <- get_resp ;;
  set_resp {| PlannedState := PlannedState r;
              Diagnostics__ := Diagnostics__ r;
              RequiresReplace := rs;
              PlannedPrivate := PlannedPrivate r |}.

(** [if resp.Diagnostics.HasError() { return }] *)
Definition return_if_HasError : M unit :=
  r <- get_resp ;;
  if diag.HasError (Diagnostics__ r) then return_ else ret tt.

(** [if err != nil { resp.Diagnostics.AddError(summary, detail+err.Error());
    return }] after a call that returns a value and an error. *)
Definition or_return {A : Type} (r : A + error) (summary detail : string)
  : M A :=
  match r with
  | inl a => ret a
  | inr err => Diagnostics_AddError summary (detail ++ Error err) ;; return_
  end.

Definition LF : string := String (ascii_of_nat 10) EmptyString.

(** The detail texts of the error diagnostics, up to the text of the
    error. *)
Definition modify_plan_detail : string :=
  "There was an unexpected error updating the plan. This is always a problem with the provider. Please report the following to the provider developer:"
  ++ LF ++ LF.

Definition parse_provider_meta_detail : string :=
  "There was an error parsing the provider_meta block. Please report this to the provider developer:"
  ++ LF ++ LF.

Definition convert_response_detail : string :=
  "There was an unexpected error converting the state in the response to a usable type. This is always a problem with the provider. Please report the following to the provider developer:"
  ++ LF ++ LF.

Definition parse_config_detail : string :=
  "An unexpected error was encountered trying to parse the configuration. This is always an error in the provider. Please report the following to the provider developer:"
  ++ LF ++ LF.

Definition parse_plan_detail : string :=
  "There was an unexpected error parsing the plan. This is always a problem with the provider. Please report the following to the provider developer:"
  ++ LF ++ LF.

Definition parse_state_detail : string :=
  "An unexpected error was encountered trying to parse the prior state. This is always an error in the provider. Please report the following to the provider developer:"
  ++ LF ++ LF.

(** Lines 397-420: mark the computed attributes that are null in the
    config as unknown in the plan. *)
Definition markUnknown
  (resourceSchema : Schema) (config state plan : tftypes.Value)
  : M tftypes.Value :=
  if negb (tftypes.IsNull plan) && negb (Value_Equal plan state) then
    start (MarkUnknown plan) ;;
    modifiedPlan <-
      or_return
        (Transform plan (markComputedNilsAsUnknown config resourceSchema))
        "Error modifying plan"
        modify_plan_detail ;;
    ret modifiedPlan
  else ret plan.

(** Lines 443-468 and 513-538: fetch the provider-meta schema and fill
    the [ProviderMeta] field of the request. *)
Definition providerMeta (s : Server) (req : PlanResourceChangeRequest)
  : M (option (tfsdk.Data Schema)) :=
  let '(providerMetaSchema, diags) := FrameworkServer_ProviderMetaSchema s in
  Diagnostics_Append diags ;;
  return_if_HasError ;;
  match providerMetaSchema with
  | Some pms =>
      match ProviderMeta_ req with
      | Some pm =>
          pmValue <-
            or_return
              (DynamicValue_Unmarshal pm (Schema_TerraformType pms))
              "Error parsing provider_meta"
              parse_provider_meta_detail ;;
          ret (Some {| tfsdk.Schema_ := pms; tfsdk.Raw := pmValue |})
      | None =>
          ret (Some {| tfsdk.Schema_ := pms;
                       tfsdk.Raw :=
                         tftypes.NewValue (Schema_TerraformType pms)
                           tftypes.null |})
      end
  | None => ret None
  end.

(** Lines 422-485: the attribute plan modifiers, when there is a plan. *)
Definition modifyAttributePlans
  (s : Server) (req : PlanResourceChangeRequest)
  (resourceSchema : Schema) (config state plan : tftypes.Value)
  : M tftypes.Value :=
  if negb (tftypes.IsNull plan) then
    pm <- providerMeta s req ;;
    let modifySchemaPlanReq :=
      {| Config := {| tfsdk.Schema_ := resourceSchema; tfsdk.Raw := config |};
         State := {| tfsdk.Schema_ := resourceSchema; tfsdk.Raw := state |};
         Plan := {| tfsdk.Schema_ := resourceSchema; tfsdk.Raw := plan |};
         ProviderMeta := pm |} in
    r <- get_resp ;;
    let modifySchemaPlanResp :=
      {| Plan_ := {| tfsdk.Schema_ := resourceSchema; tfsdk.Raw := plan |};
         RequiresReplace_ := [];
         Diagnostics_ := Diagnostics__ r |} in
    start (AttributePlanModification modifySchemaPlanReq) ;;
    let modifySchemaPlanResp :=
      SchemaModifyPlan resourceSchema modifySchemaPlanReq
        modifySchemaPlanResp in
    set_RequiresReplace
      (RequiresReplace r ++ RequiresReplace_ modifySchemaPlanResp) ;;
    set_Diagnostics (Diagnostics_ modifySchemaPlanResp) ;;
    return_if_HasError ;;
    ret (tfsdk.Raw (Plan_ modifySchemaPlanResp))
  else ret plan.

(** Lines 487-553: the resource's ModifyPlan, whether or not there is a
    plan.  The second component is [modifyPlanResp.RequiresReplace]. *)
Definition modifyResourcePlan
  (s : Server) (req : PlanResourceChangeRequest) (resource : Resource)
  (resourceSchema : Schema) (config state plan : tftypes.Value)
  : M (tftypes.Value * Paths) :=
  match ModifyPlan resource with
  | Some resource_ModifyPlan =>
      pm <- providerMeta s req ;;
      let modifyPlanReq :=
        {| Config :=
             {| tfsdk.Schema_ := resourceSchema; tfsdk.Raw := config |};
           State := {| tfsdk.Schema_ := resourceSchema; tfsdk.Raw := state |};
           Plan := {| tfsdk.Schema_ := resourceSchema; tfsdk.Raw := plan |};
           ProviderMeta := pm |} in
      r <- get_resp ;;
      let modifyPlanResp :=
        {| Plan_ := {| tfsdk.Schema_ := resourceSchema; tfsdk.Raw := plan |};
           RequiresReplace_ := [];
           Diagnostics_ := Diagnostics__ r |} in
      start (ResourcePlanModification modifyPlanReq) ;;
      let modifyPlanResp := resource_ModifyPlan modifyPlanReq modifyPlanResp in
      set_Diagnostics (Diagnostics_ modifyPlanResp) ;;
      ret (tfsdk.Raw (Plan_ modifyPlanResp), RequiresReplace_ modifyPlanResp)
  | None => ret (plan, [])
  end.

(** Lines 555-567: convert the plan and normalise the paths. *)
Definition finish (plan : tftypes.Value) (modifyPlanResp_RequiresReplace : Paths)
  : M unit :=
  plannedState <-
    or_return
      (NewDynamicValue (tftypes.Type_of plan) plan)
      "Error converting response"
      convert_response_detail ;;
  set_PlannedState (Some plannedState) ;;
  r <- get_resp ;;
  set_RequiresReplace (RequiresReplace r ++ modifyPlanResp_RequiresReplace) ;;
  (* ensure deterministic RequiresReplace by sorting and deduplicating *)
  r <- get_resp ;;
  set_RequiresReplace (normaliseRequiresReplace (RequiresReplace r)).

(** Lines 298-553: parse the request and run the passes; the result is
    the plan and [modifyPlanResp.RequiresReplace]. *)
Definition planning (s : Server) (req : PlanResourceChangeRequest)
  : M (tftypes.Value * Paths) :=
  (* get the type of resource, so we can get its schema and create an
     instance *)
  let '(resourceType, diags) := FrameworkServer_ResourceType s (TypeName req) in
  Diagnostics_Append diags ;;
  return_if_HasError ;;
  (* get the schema from the resource type, so we can embed it in the
     config and plan *)
  let '(resourceSchema, diags) := GetSchema resourceType in
  Diagnostics_Append diags ;;
  return_if_HasError ;;
  config <-
    or_return
      (DynamicValue_Unmarshal (Config_ req) (Schema_TerraformType resourceSchema))
      "Error parsing configuration"
      parse_config_detail ;;
  plan <-
    or_return
      (DynamicValue_Unmarshal (ProposedNewState req)
         (Schema_TerraformType resourceSchema))
      "Error parsing plan"
      parse_plan_detail ;;
  state <-
    or_return
      (DynamicValue_Unmarshal (PriorState req)
         (Schema_TerraformType resourceSchema))
      "Error parsing prior state"
      parse_state_detail ;;
  set_PlannedState (Some (ProposedNewState req)) ;;
  (* create the resource instance, so we can call its methods and handle
     the request *)
  let '(resource, diags) := NewResource resourceType in
  Diagnostics_Append diags ;;
  return_if_HasError ;;
  plan <- markUnknown resourceSchema config state plan ;;
  plan <- modifyAttributePlans s req resourceSchema config state plan ;;
  modifyResourcePlan s req resource resourceSchema config state plan.

(** Lines 298-568. *)
Definition planResourceChange (s : Server) (req : PlanResourceChangeRequest)
  : M unit :=
  res <- planning s req ;;
  finish (fst res) (snd res).

(** [resp := &planResourceChangeResponse{}] *)
Definition empty_response : planResourceChangeResponse :=
  {| PlannedState := None; Diagnostics__ := []; RequiresReplace := [];
     PlannedPrivate := [] |}.

(** [PlanResourceChange]: run [planResourceChange] on an empty response;
    the response it leaves, with the passes it started. *)
Definition PlanResourceChange (s : Server) (req : PlanResourceChangeRequest)
  : planResourceChangeResponse * list Pass :=
  let st :=
    snd (planResourceChange s req {| resp := empty_response; passes := [] |})
  in (resp st, passes st).

(** The request as the function reads it: the schema of the resource
    type, and the three values unmarshalled at its type. *)
Definition schema_of (s : Server) (req : PlanResourceChangeRequest) : Schema :=
  fst (GetSchema (fst (FrameworkServer_ResourceType s (TypeName req)))).

Definition resource_of (s : Server) (req : PlanResourceChangeRequest)
  : Resource :=
  fst (NewResource (fst (FrameworkServer_ResourceType s (TypeName req)))).

Definition config_of (s : Server) (req : PlanResourceChangeRequest)
  : tftypes.Value + error :=
  DynamicValue_Unmarshal (Config_ req) (Schema_TerraformType (schema_of s req)).

Definition proposed_of (s : Server) (req : PlanResourceChangeRequest)
  : tftypes.Value + error :=
  DynamicValue_Unmarshal (ProposedNewState req)
    (Schema_TerraformType (schema_of s req)).

Definition prior_of (s : Server) (req : PlanResourceChangeRequest)
  : tftypes.Value + error :=
  DynamicValue_Unmarshal (PriorState req)
    (Schema_TerraformType (schema_of s req)).

(** The diagnostics of looking up the resource type and its schema. *)
Definition lookup_diags (s : Server) (req : PlanResourceChangeRequest)
  : Diagnostics :=
  diag.Append
    (snd (FrameworkServer_ResourceType s (TypeName req)))
    (snd (GetSchema (fst (FrameworkServer_ResourceType s (TypeName req))))).

(** The resource type and schema were found without an error diagnostic. *)
Definition LookedUp (s : Server) (req : PlanResourceChangeRequest) : Prop :=
  diag.HasError (snd (FrameworkServer_ResourceType s (TypeName req))) = false /\
  diag.HasError (lookup_diags s req) = false.

(** [dv] is a wire form of [v]: it unmarshals to [v] at type [typ], or it
    is what [v] converts to. *)
Definition Encodes (typ : tftypes.Type_) (dv : DynamicValue) (v : tftypes.Value)
  : Prop :=
  DynamicValue_Unmarshal dv typ = inl v \/
  NewDynamicValue (tftypes.Type_of v) v = inl dv.

(** A resource whose ModifyPlan, if it has one, leaves the plan it is
    handed. *)
Definition KeepsPlan (resource : Resource) : Prop :=
  forall m rq rs,
    ModifyPlan resource = Some m ->
    tfsdk.Raw (Plan_ (m rq rs)) = tfsdk.Raw (Plan_ rs).

(** [after] is [before] with one error diagnostic more, of the given
    summary, whose detail ends in the text of [err]; nothing else differs. *)
Definition AbortedWith
  (before : planResourceChangeResponse) (summary : string) (err : error)
  (after : planResourceChangeResponse) : Prop :=
  exists text,
    after =
    {| PlannedState := PlannedState before;
       Diagnostics__ :=
         Diagnostics__ before ++
         [diag.NewErrorDiagnostic tftypes.AttributePath summary
            (text ++ Error err)];
       RequiresReplace := RequiresReplace before;
       PlannedPrivate := PlannedPrivate before |}.

(** The response when the resource type and schema have been looked up
    and nothing else has happened. *)
Definition looked_up_response (s : Server) (req : PlanResourceChangeRequest)
  : planResourceChangeResponse :=
  {| PlannedState := None; Diagnostics__ := lookup_diags s req;
     RequiresReplace := []; PlannedPrivate := [] |}.

(** An attribute-level plan modification started before the marking of
    unknown values did. *)
Definition AttributePassBeforeMarking (ps : list Pass) : Prop :=
  exists l1 r l2 p l3,
    ps = l1 ++ AttributePlanModification r :: l2 ++ MarkUnknown p :: l3.

End Plan.

End proto6server.

(** ** A library to run the code on

    One implementation of the parameters, small enough to read, on which
    the examples and the scenarios of section 8 of the specification are
    run.  The theorems of Part II hold for every library; nothing below
    is assumed by them. *)

Module Sample.
Import errors.
Local Open Scope string_scope.

Definition dquote : string := String (ascii_of_nat 34) EmptyString.

(** *** tftypes *)

Fixpoint Type_eqb (a b : tftypes.Type_) : bool :=
  match a, b with
  | tftypes.String, tftypes.String => true
  | tftypes.Number, tftypes.Number => true
  | tftypes.Bool, tftypes.Bool => true
  | tftypes.List x, tftypes.List y => Type_eqb x y
  | tftypes.Set_ x, tftypes.Set_ y => Type_eqb x y
  | tftypes.Map x, tftypes.Map y => Type_eqb x y
  | tftypes.Object xs, tftypes.Object ys =>
      (fix go (xs ys : list (string * tftypes.Type_)) : bool :=
         match xs, ys with
         | [], [] => true
         | (k, t) :: xs', (k', t') :: ys' =>
             String.eqb k k' && Type_eqb t t' && go xs' ys'
         | _, _ => false
         end) xs ys
  | _, _ => false
  end.

(** Modelled from the spec: [Value.Equal], equality of the types and of
    the data, child by child. *)
Fixpoint Value_Equal (a b : tftypes.Value) : bool :=
  match a, b with
  | tftypes.NewValue ta ca, tftypes.NewValue tb cb =>
      Type_eqb ta tb && Content_Equal ca cb
  end
with Content_Equal (a b : tftypes.Content) : bool :=
  match a, b with
  | tftypes.null, tftypes.null => true
  | tftypes.UnknownValue, tftypes.UnknownValue => true
  | tftypes.str s, tftypes.str t => String.eqb s t
  | tftypes.num n, tftypes.num m => Z.eqb n m
  | tftypes.boolean x, tftypes.boolean y => Bool.eqb x y
  | tftypes.slice xs, tftypes.slice ys =>
      (fix go (xs ys : list tftypes.Value) : bool :=
         match xs, ys with
         | [], [] => true
         | x :: xs', y :: ys' => Value_Equal x y && go xs' ys'
         | _, _ => false
         end) xs ys
  | tftypes.dict xs, tftypes.dict ys =>
      (fix go (xs ys : list (string * tftypes.Value)) : bool :=
         match xs, ys with
         | [], [] => true
         | (k, x) :: xs', (k', y) :: ys' =>
             String.eqb k k' && Value_Equal x y && go xs' ys'
         | _, _ => false
         end) xs ys
  | _, _ => false
  end.

(** A rendering of a value, for the step that carries one. *)
Fixpoint Value_String (v : tftypes.Value) : string :=
  match v with
  | tftypes.NewValue _ c =>
      match c with
      | tftypes.null => "null"
      | tftypes.UnknownValue => "unknown"
      | tftypes.str s => dquote ++ s ++ dquote
      | tftypes.num n => NilZero.string_of_int (Z.to_int n)
      | tftypes.boolean b => if b then "true" else "false"
      | tftypes.slice xs =>
          "[" ++ (fix go (xs : list tftypes.Value) : string :=
                    match xs with
                    | [] => EmptyString
                    | x :: xs' => Value_String x ++ "," ++ go xs'
                    end) xs ++ "]"
      | tftypes.dict xs =>
          "{" ++ (fix go (xs : list (string * tftypes.Value)) : string :=
                    match xs with
                    | [] => EmptyString
                    | (k, x) :: xs' =>
                        dquote ++ k ++ dquote ++ ":" ++ Value_String x ++
                        "," ++ go xs'
                    end) xs ++ "}"
      end
  end.

(** The rendering of a step, in the form the comment of serve.go quotes:
    [ElementKeyInt(1).AttributeName("name")]. *)
Definition AttributePathStep_String (step : tftypes.AttributePathStep)
  : string :=
  match step with
  | tftypes.AttributeName name =>
      "AttributeName(" ++ dquote ++ name ++ dquote ++ ")"
  | tftypes.ElementKeyInt index =>
      "ElementKeyInt(" ++ NilZero.string_of_int (Z.to_int index) ++ ")"
  | tftypes.ElementKeyString key =>
      "ElementKeyString(" ++ dquote ++ key ++ dquote ++ ")"
  | tftypes.ElementKeyValue v => "ElementKeyValue(" ++ Value_String v ++ ")"
  end.

Definition AttributePath_String (path : tftypes.AttributePath) : string :=
  String.concat "." (map AttributePathStep_String path).

Definition AttributePathStep_Equal (a b : tftypes.AttributePathStep) : bool :=
  match a, b with
  | tftypes.AttributeName x, tftypes.AttributeName y => String.eqb x y
  | tftypes.ElementKeyInt x, tftypes.ElementKeyInt y => Z.eqb x y
  | tftypes.ElementKeyString x, tftypes.ElementKeyString y => String.eqb x y
  | tftypes.ElementKeyValue x, tftypes.ElementKeyValue y => Value_Equal x y
  | _, _ => false
  end.

(** Step by step, on paths of the same length. *)
Fixpoint AttributePath_Equal (a b : tftypes.AttributePath) : bool :=
  match a, b with
  | [], [] => true
  | x :: a', y :: b' => AttributePathStep_Equal x y && AttributePath_Equal a' b'
  | _, _ => false
  end.

Fixpoint lookup {A : Type} (k : string) (kvs : list (string * A)) : option A :=
  match kvs with
  | [] => None
  | (k', v) :: kvs' => if String.eqb k k' then Some v else lookup k kvs'
  end.

(** Modelled from the spec: one step into a value (section 4.1): by name
    into an object, by key into a map, by index into a list, by value into
    a set; anything else, and any step into a null or unknown value, is an
    invalid step. *)
Definition ApplyStep (val : tftypes.Value) (step : tftypes.AttributePathStep)
  : option tftypes.Value :=
  match val, step with
  | tftypes.NewValue (tftypes.Object _) (tftypes.dict kvs),
    tftypes.AttributeName name => lookup name kvs
  | tftypes.NewValue (tftypes.Map _) (tftypes.dict kvs),
    tftypes.ElementKeyString key => lookup key kvs
  | tftypes.NewValue (tftypes.List _) (tftypes.slice vs),
    tftypes.ElementKeyInt index =>
      if (index <? 0)%Z then None else nth_error vs (Z.to_nat index)
  | tftypes.NewValue (tftypes.Set_ _) (tftypes.slice vs),
    tftypes.ElementKeyValue v => find (Value_Equal v) vs
  | _, _ => None
  end.

(** Modelled from the spec: look a path up in a value, step by step; on a
    step that cannot be applied, the value reached so far and the steps
    that remain come back with [ErrInvalidStep]. *)
Fixpoint WalkAttributePath (val : tftypes.Value) (path : tftypes.AttributePath)
  : tftypes.Value * tftypes.AttributePath * option error :=
  match path with
  | [] => (val, [], None)
  | step :: path' =>
      match ApplyStep val step with
      | Some next => WalkAttributePath next path'
      | None => (val, path, Some ErrInvalidStep)
      end
  end.

(** The callback's result as [Transform] reads it. *)
Definition callback_result (r : option tftypes.Value * option error)
  : tftypes.Value + error :=
  match r with
  | (_, Some err) => inr err
  | (Some v, None) => inl v
  | (None, None) => inr (errorString "invalid transform: value missing type")
  end.

(** Modelled from the spec: walk a value (section 4.3, step 3), children
    before their parent, and replace every position by what the callback
    returns for its path; the first error stops the walk. *)
Fixpoint transform
  (cb : tftypes.AttributePath -> tftypes.Value ->
        option tftypes.Value * option error)
  (path : tftypes.AttributePath) (val : tftypes.Value)
  : tftypes.Value + error :=
  match val with
  | tftypes.NewValue ty (tftypes.slice vs) =>
      match
        (fix go (i : Z) (vs : list tftypes.Value)
           : list tftypes.Value + error :=
           match vs with
           | [] => inl []
           | v :: vs' =>
               let step :=
                 match ty with
                 | tftypes.Set_ _ => tftypes.ElementKeyValue v
                 | _ => tftypes.ElementKeyInt i
                 end in
               match transform cb (path ++ [step])%list v with
               | inr err => inr err
               | inl v' =>
                   match go (i + 1)%Z vs' with
                   | inr err => inr err
                   | inl vs'' => inl (v' :: vs'')
                   end
               end
           end) 0%Z vs
      with
      | inr err => inr err
      | inl vs' => callback_result (cb path (tftypes.NewValue ty (tftypes.slice vs')))
      end
  | tftypes.NewValue ty (tftypes.dict kvs) =>
      match
        (fix go (kvs : list (string * tftypes.Value))
           : list (string * tftypes.Value) + error :=
           match kvs with
           | [] => inl []
           | (k, v) :: kvs' =>
               let step :=
                 match ty with
                 | tftypes.Map _ => tftypes.ElementKeyString k
                 | _ => tftypes.AttributeName k
                 end in
               match transform cb (path ++ [step])%list v with
               | inr err => inr err
               | inl v' =>
                   match go kvs' with
                   | inr err => inr err
                   | inl kvs'' => inl ((k, v') :: kvs'')
                   end
               end
           end) kvs
      with
      | inr err => inr err
      | inl kvs' =>
          callback_result (cb path (tftypes.NewValue ty (tftypes.dict kvs')))
      end
  | _ => callback_result (cb path val)
  end.

Definition Transform (val : tftypes.Value)
  (cb : tftypes.AttributePath -> tftypes.Value ->
        option tftypes.Value * option error)
  : tftypes.Value + error :=
  transform cb [] val.

(** *** tfsdk *)

(** Modelled from the spec: a schema whose attributes are all atomic; an
    attribute has its flags and the type of its values. *)
Definition Schema : Type := list (string * (tfsdk.Attribute * tftypes.Type_)).

Definition zeroAttribute : tfsdk.Attribute :=
  {| tfsdk.Required := false; tfsdk.Optional := false;
     tfsdk.Computed := false; tfsdk.Sensitive := false |}.

Definition Schema_TerraformType (s : Schema) : tftypes.Type_ :=
  tftypes.Object (map (fun kv => (fst kv, snd (snd kv))) s).

(** Modelled from the spec: the attribute a path leads to.  A path that
    goes on below an attribute of the schema is inside an atomic attribute;
    one that does not start at an attribute of the schema is a mismatch. *)
Definition Schema_AttributeAtPath (s : Schema) (path : tftypes.AttributePath)
  : tfsdk.Attribute * option error :=
  match path with
  | tftypes.AttributeName name :: path' =>
      match lookup name s, path' with
      | Some (a, _), [] => (a, None)
      | Some _, _ :: _ => (zeroAttribute, Some ErrPathInsideAtomicAttribute)
      | None, _ =>
          (zeroAttribute,
           Some (wrapError
                   (AttributePath_String path ++ " still remains in the path: ")
                   ErrInvalidStep))
      end
  | _ =>
      (zeroAttribute,
       Some (wrapError
               (AttributePath_String path ++ " still remains in the path: ")
               ErrInvalidStep))
  end.

(** *** tfprotov6 *)

(** A wire value: the value it decodes to, or [None] for bytes that do
    not decode. *)
Definition DynamicValue : Type := option tftypes.Value.

Definition DynamicValue_Unmarshal (d : DynamicValue) (typ : tftypes.Type_)
  : tftypes.Value + error :=
  match d with
  | Some v =>
      if Type_eqb (tftypes.Type_of v) typ then inl v
      else inr (errorString "error decoding value: type mismatch")
  | None => inr (errorString "error decoding value: malformed")
  end.

(** The data of a value is of the kind its type asks for. *)
Definition usable (v : tftypes.Value) : bool :=
  match v with
  | tftypes.NewValue _ tftypes.null => true
  | tftypes.NewValue _ tftypes.UnknownValue => true
  | tftypes.NewValue tftypes.String (tftypes.str _) => true
  | tftypes.NewValue tftypes.Number (tftypes.num _) => true
  | tftypes.NewValue tftypes.Bool (tftypes.boolean _) => true
  | tftypes.NewValue (tftypes.List _) (tftypes.slice _) => true
  | tftypes.NewValue (tftypes.Set_ _) (tftypes.slice _) => true
  | tftypes.NewValue (tftypes.Map _) (tftypes.dict _) => true
  | tftypes.NewValue (tftypes.Object _) (tftypes.dict _) => true
  | _ => false
  end.

Definition NewDynamicValue (typ : tftypes.Type_) (v : tftypes.Value)
  : DynamicValue + error :=
  if Type_eqb typ (tftypes.Type_of v) && usable v then inl (Some v)
  else inr (errorString "error encoding value").

(** *** The library *)

Definition sentinelText (err : error) : string :=
  match err with
  | ErrInvalidStep => "step cannot be applied to this value"
  | _ => "path leads to element or attribute nested inside of atomic attribute"
  end.

#[local] Instance types : proto6server.Types :=
  {| proto6server.Schema := Schema;
     proto6server.DynamicValue := DynamicValue |}.

(** [modifiers] stands for the attribute plan modifiers of the schema. *)
Definition library
  (modifiers : Schema -> proto6server.ModifyPlanRequest ->
               proto6server.ModifyPlanResponse ->
               proto6server.ModifyPlanResponse)
  : proto6server.Library :=
  {| proto6server.Schema_TerraformType := Schema_TerraformType;
     proto6server.Schema_AttributeAtPath := Schema_AttributeAtPath;
     proto6server.Value_Equal := Value_Equal;
     proto6server.WalkAttributePath := WalkAttributePath;
     proto6server.Transform := Transform;
     proto6server.AttributePath_Equal := AttributePath_Equal;
     proto6server.AttributePath_String := AttributePath_String;
     proto6server.DynamicValue_Unmarshal := DynamicValue_Unmarshal;
     proto6server.NewDynamicValue := NewDynamicValue;
     proto6server.sort_Slice :=
       sort.insertionSort (Normalise.less AttributePath_String);
     proto6server.sentinelText := sentinelText;
     proto6server.SchemaModifyPlan := modifiers |}.

(** A schema without plan modifiers. *)
Definition no_modifiers
  (_ : Schema) (_ : proto6server.ModifyPlanRequest)
  (resp : proto6server.ModifyPlanResponse) : proto6server.ModifyPlanResponse :=
  resp.

End Sample.

(** ** Requests to run

    The inputs of the scenarios of section 8 of the specification, for
    the library above. *)

Module Scenario.
Import proto6server.
Local Open Scope string_scope.
#[local] Existing Instance Sample.types.

Definition attribute (required optional computed : bool) : tfsdk.Attribute :=
  {| tfsdk.Required := required; tfsdk.Optional := optional;
     tfsdk.Computed := computed; tfsdk.Sensitive := false |}.

(** A server with one resource type, without diagnostics of its own and
    without provider-meta schema. *)
Definition server (schema : Sample.Schema) (resource : @Resource Sample.types)
  : @Server Sample.types :=
  {| FrameworkServer_ResourceType := fun _ =>
       ({| GetSchema := (schema, []); NewResource := (resource, []) |}, []);
     FrameworkServer_ProviderMetaSchema := (None, []) |}.

Definition request (config plan state : Sample.DynamicValue)
  : @PlanResourceChangeRequest Sample.types :=
  {| TypeName := "test_resource"; PriorState := state;
     ProposedNewState := plan; Config_ := config; ProviderMeta_ := None |}.

Definition plain : @Resource Sample.types := {| ModifyPlan := None |}.

(** *** One optional and one computed string attribute *)

Definition schema2 : Sample.Schema :=
  [ ("optional", (attribute false true false, tftypes.String));
    ("computed", (attribute false false true, tftypes.String)) ].

Definition value2 (optional computed : tftypes.Content) : tftypes.Value :=
  tftypes.NewValue (Sample.Schema_TerraformType schema2)
    (tftypes.dict
       [ ("optional", tftypes.NewValue tftypes.String optional);
         ("computed", tftypes.NewValue tftypes.String computed) ]).

Definition null2 : tftypes.Value :=
  tftypes.NewValue (Sample.Schema_TerraformType schema2) tftypes.null.

Definition config2 : tftypes.Value := value2 (tftypes.str "x") tftypes.null.
Definition plan2 : tftypes.Value := value2 (tftypes.str "x") tftypes.null.
Definition state2 : tftypes.Value :=
  value2 (tftypes.str "w") (tftypes.str "id-1").
Definition marked2 : tftypes.Value :=
  value2 (tftypes.str "x") tftypes.UnknownValue.
(** The computed attribute set in the config, and proposed as set. *)
Definition set2 : tftypes.Value :=
  value2 (tftypes.str "x") (tftypes.str "set").

(** The position of the computed attribute, and the value proposed
    there. *)
Definition computed_path : tftypes.AttributePath :=
  [tftypes.AttributeName "computed"].
Definition null_string : tftypes.Value :=
  tftypes.NewValue tftypes.String tftypes.null.

(** The request the attribute plan modifiers are handed for [config2],
    [state2] and [plan2]: its plan is [marked2]. *)
Definition modify_request2 : @ModifyPlanRequest Sample.types :=
  {| Config := {| tfsdk.Schema_ := schema2; tfsdk.Raw := config2 |};
     State := {| tfsdk.Schema_ := schema2; tfsdk.Raw := state2 |};
     Plan := {| tfsdk.Schema_ := schema2; tfsdk.Raw := marked2 |};
     ProviderMeta := None |}.

(** A proposed plan with an attribute the schema does not have. *)
Definition ghost2 : tftypes.Value :=
  tftypes.NewValue (Sample.Schema_TerraformType schema2)
    (tftypes.dict
       [ ("optional", tftypes.NewValue tftypes.String (tftypes.str "x"));
         ("computed", tftypes.NewValue tftypes.String tftypes.null);
         ("ghost", tftypes.NewValue tftypes.String tftypes.null) ]).

(** *** Paths to replace *)

Definition a : tftypes.AttributePath := [tftypes.AttributeName "a"].
Definition b : tftypes.AttributePath := [tftypes.AttributeName "b"].
Definition c : tftypes.AttributePath := [tftypes.AttributeName "c"].

(** Attribute plan modifiers that ask to replace [b], then [a]. *)
Definition modifiers_b_a
  (_ : Sample.Schema) (_ : @ModifyPlanRequest Sample.types)
  (resp : @ModifyPlanResponse Sample.types) : @ModifyPlanResponse Sample.types :=
  {| Plan_ := Plan_ resp;
     RequiresReplace_ := (RequiresReplace_ resp ++ [b; a])%list;
     Diagnostics_ := Diagnostics_ resp |}.

(** A resource whose ModifyPlan asks to replace [a], then [c]. *)
Definition replaces_a_c : @Resource Sample.types :=
  {| ModifyPlan := Some (fun _ resp =>
       {| Plan_ := Plan_ resp;
          RequiresReplace_ := (RequiresReplace_ resp ++ [a; c])%list;
          Diagnostics_ := Diagnostics_ resp |}) |}.

(** *** A ModifyPlan that fails *)

Definition rewritten2 : tftypes.Value :=
  value2 (tftypes.str "rewritten") (tftypes.str "by ModifyPlan").

Definition oops : diag.Diagnostic tftypes.AttributePath :=
  diag.NewErrorDiagnostic tftypes.AttributePath "This is an error" "Oops.".

(** A resource whose ModifyPlan rewrites the plan and reports an error. *)
Definition failing : @Resource Sample.types :=
  {| ModifyPlan := Some (fun _ resp =>
       {| Plan_ :=
            {| tfsdk.Schema_ := tfsdk.Schema_ (Plan_ resp);
               tfsdk.Raw := rewritten2 |};
          RequiresReplace_ := RequiresReplace_ resp;
          Diagnostics_ := diag.Append (Diagnostics_ resp) [oops] |}) |}.

(** A resource whose ModifyPlan leaves a plan that cannot be converted:
    a string where the schema has an object. *)
Definition unconvertible : @Resource Sample.types :=
  {| ModifyPlan := Some (fun _ resp =>
       {| Plan_ :=
            {| tfsdk.Schema_ := tfsdk.Schema_ (Plan_ resp);
               tfsdk.Raw :=
                 tftypes.NewValue (Sample.Schema_TerraformType schema2)
                   (tftypes.str "not an object") |};
          RequiresReplace_ := RequiresReplace_ resp;
          Diagnostics_ := Diagnostics_ resp |}) |}.

(** *** The end-to-end input: id computed, name optional, tags optional
    and computed *)

Definition schema3 : Sample.Schema :=
  [ ("id", (attribute false false true, tftypes.String));
    ("name", (attribute false true false, tftypes.String));
    ("tags", (attribute false true true, tftypes.List tftypes.String)) ].

Definition value3 (id name tags : tftypes.Content) : tftypes.Value :=
  tftypes.NewValue (Sample.Schema_TerraformType schema3)
    (tftypes.dict
       [ ("id", tftypes.NewValue tftypes.String id);
         ("name", tftypes.NewValue tftypes.String name);
         ("tags", tftypes.NewValue (tftypes.List tftypes.String) tags) ]).

Definition tags_x : tftypes.Content :=
  tftypes.slice [tftypes.NewValue tftypes.String (tftypes.str "x")].

Definition state3 : tftypes.Value :=
  value3 (tftypes.str "1") (tftypes.str "a") tags_x.
Definition config3 : tftypes.Value :=
  value3 tftypes.null (tftypes.str "a") tftypes.null.
Definition plan3 : tftypes.Value :=
  value3 (tftypes.str "1") (tftypes.str "a") tftypes.null.

(** The same with a list of tags proposed; the config has none. *)
Definition plan3_tags : tftypes.Value :=
  value3 (tftypes.str "1") (tftypes.str "a") tags_x.
Definition tag0_path : tftypes.AttributePath :=
  [tftypes.AttributeName "tags"; tftypes.ElementKeyInt 0].

(** The run of a request on the sample library. *)
Definition run
  (modifiers : Sample.Schema -> @ModifyPlanRequest Sample.types ->
               @ModifyPlanResponse Sample.types ->
               @ModifyPlanResponse Sample.types)
  (s : @Server Sample.types) (req : @PlanResourceChangeRequest Sample.types)
  : @planResourceChangeResponse Sample.types * list (@Pass Sample.types) :=
  @PlanResourceChange Sample.types (Sample.library modifiers) s req.

End Scenario.

(** ** Words for the further properties of planResourceChange *)

Module planWords.
Import errors proto6server.

Section WithLibrary.
Context {T : Types} {L : Library}.

(** The place of a pass in the order the code has the passes in. *)
Definition pass_rank (p : Pass) : nat :=
  match p with
  | MarkUnknown _ => 0
  | AttributePlanModification _ => 1
  | ResourcePlanModification _ => 2
  end.

(** The state [PlanResourceChange] starts [planResourceChange] in. *)
Definition initial : St := {| resp := empty_response; passes := [] |}.

(** The response a plan modifier is handed: the plan of the request, no
    paths, and the diagnostics so far. *)
Definition handed (r : ModifyPlanRequest) (diags : Diagnostics)
  : ModifyPlanResponse :=
  {| Plan_ := Plan r; RequiresReplace_ := []; Diagnostics_ := diags |}.

(** The diagnostics of creating the resource, and of fetching the
    provider-meta schema. *)
Definition resource_diags (s : Server) (req : PlanResourceChangeRequest)
  : Diagnostics :=
  snd (NewResource (fst (FrameworkServer_ResourceType s (TypeName req)))).

Definition meta_diags (s : Server) : Diagnostics :=
  snd (FrameworkServer_ProviderMetaSchema s).

(** [pm] is the provider meta the code puts into a request: none without a
    provider-meta schema; with one, the value of the request unmarshalled
    at its type, or the null value of that type when the request has
    none. *)
Definition ProviderMetaIs (s : Server) (req : PlanResourceChangeRequest)
  (pm : option (tfsdk.Data Schema)) : Prop :=
  match fst (FrameworkServer_ProviderMetaSchema s), ProviderMeta_ req with
  | None, _ => pm = None
  | Some pms, None =>
      pm = Some {| tfsdk.Schema_ := pms;
                   tfsdk.Raw :=
                     tftypes.NewValue (Schema_TerraformType pms) tftypes.null |}
  | Some pms, Some dv =>
      exists v,
        DynamicValue_Unmarshal dv (Schema_TerraformType pms) = inl v /\
        pm = Some {| tfsdk.Schema_ := pms; tfsdk.Raw := v |}
  end.

End WithLibrary.

End planWords.

(** ** Libraries that wrap their sentinels

    The sample library with a walk, or a schema, that reports its failure
    the way [fmt.Errorf] with the verb [%w] does: as an error that wraps
    the sentinel. *)

Module Wrapped.
Import errors.
Local Open Scope string_scope.
#[local] Existing Instance Sample.types.

Definition wrap (text : string) (err : option error) : option error :=
  option_map (wrapError text) err.

Definition WalkAttributePath (val : tftypes.Value) (path : tftypes.AttributePath)
  : tftypes.Value * tftypes.AttributePath * option error :=
  let '(reached, rest, err) := Sample.WalkAttributePath val path in
  (reached, rest, wrap "walking the path: " err).

Definition Schema_AttributeAtPath
  (s : Sample.Schema) (path : tftypes.AttributePath)
  : tfsdk.Attribute * option error :=
  let '(attribute, err) := Sample.Schema_AttributeAtPath s path in
  (attribute, wrap "looking up the attribute: " err).

(** The sample library without plan modifiers, with the walk and the
    schema lookup given. *)
Definition library
  (walk : tftypes.Value -> tftypes.AttributePath ->
          tftypes.Value * tftypes.AttributePath * option error)
  (atPath : Sample.Schema -> tftypes.AttributePath ->
            tfsdk.Attribute * option error)
  : @proto6server.Library Sample.types :=
  {| proto6server.Schema_TerraformType := Sample.Schema_TerraformType;
     proto6server.Schema_AttributeAtPath := atPath;
     proto6server.Value_Equal := Sample.Value_Equal;
     proto6server.WalkAttributePath := walk;
     proto6server.Transform := Sample.Transform;
     proto6server.AttributePath_Equal := Sample.AttributePath_Equal;
     proto6server.AttributePath_String := Sample.AttributePath_String;
     proto6server.DynamicValue_Unmarshal := Sample.DynamicValue_Unmarshal;
     proto6server.NewDynamicValue := Sample.NewDynamicValue;
     proto6server.sort_Slice :=
       sort.insertionSort (Normalise.less Sample.AttributePath_String);
     proto6server.sentinelText := Sample.sentinelText;
     proto6server.SchemaModifyPlan := Sample.no_modifiers |}.

Definition wraps_walk : @proto6server.Library Sample.types :=
  library WalkAttributePath Sample.Schema_AttributeAtPath.

Definition wraps_schema : @proto6server.Library Sample.types :=
  library Sample.WalkAttributePath Schema_AttributeAtPath.

(** A position below the computed attribute of the scenario. *)
Definition inside_computed : tftypes.AttributePath :=
  [tftypes.AttributeName "computed"; tftypes.ElementKeyInt 0].

End Wrapped.

(** ** The registry of cancel functions

    serve.go, lines 23-45 and 113-117: the field [contextCancels] of the
    server, [registerContext], [cancelRegisteredContexts] and
    [StopProvider]. *)

Module registry.

(** Go's package context, as far as the server uses it.  A cancel function
    is known by its number; [context.WithCancel] makes one that no earlier
    call made, and a context that is done once that function, or one that
    ends the context it was derived from, has been called. *)
Definition CancelFunc : Type := nat.

(** A context: the cancel functions that end it. *)
Record Context : Type := { ends : list CancelFunc }.

(** How many cancel functions have been made, and those called so far, in
    the order of the calls. *)
Record World : Type := { issued : nat; called : list CancelFunc }.

Definition WithCancel (parent : Context) (w : World)
  : Context * CancelFunc * World :=
  ({| ends := issued w :: ends parent |}, issued w,
   {| issued := S (issued w); called := called w |}).

(** [cancel()]. *)
Definition call (cancel : CancelFunc) (w : World) : World :=
  {| issued := issued w; called := called w ++ [cancel] |}.

(** [ctx.Done()] is closed. *)
Definition Done (w : World) (ctx : Context) : bool :=
  existsb (fun cancel => existsb (Nat.eqb cancel) (called w)) (ends ctx).

(** The server, as far as the registry goes.  The two functions below hold
    [contextCancelsMu] from their first to their last statement, so each
    runs as one step. *)
Record Server : Type := { contextCancels : list CancelFunc }.

Definition State : Type := (Server * World)%type.

(** Lines 30-36. *)
Definition registerContext (in_ : Context) (st : State) : Context * State :=
  let '(ctx, cancel, w) := WithCancel in_ (snd st) in
  (ctx, ({| contextCancels := contextCancels (fst st) ++ [cancel] |}, w)).

(** Lines 38-45. *)
Definition cancelRegisteredContexts (st : State) : State :=
  ({| contextCancels := [] |},
   fold_left (fun w cancel => call cancel w) (contextCancels (fst st)) (snd st)).

(** Lines 113-117; the response is the empty [StopProviderResponse]. *)
Definition StopProvider (st : State) : State := cancelRegisteredContexts st.

(** The calls the server takes.  Every handler but [StopProvider] begins
    with [ctx = s.registerContext(ctx)] and does not touch the field
    again: a request, with the context of the caller. *)
Inductive Call : Type :=
| Request (ctx : Context)
| Stop.

(** One call: the contexts handed to the handler's body, and the state
    it leaves. *)
Definition serve (c : Call) (st : State) : list Context * State :=
  match c with
  | Request in_ => let '(ctx, st') := registerContext in_ st in ([ctx], st')
  | Stop => ([], StopProvider st)
  end.

Fixpoint run (calls : list Call) (st : State) : list Context * State :=
  match calls with
  | [] => ([], st)
  | c :: calls' =>
      let '(ctxs, st') := serve c st in
      let '(ctxs', st'') := run calls' st' in
      (ctxs ++ ctxs', st'')
  end.

(** [&Server{}] in a world where no cancel function has been made. *)
Definition fresh : State :=
  ({| contextCancels := [] |}, {| issued := 0; called := [] |}).

(** Every cancel function made so far has been called or is registered,
    once, in the order they were made. *)
Definition Accounted (st : State) : Prop :=
  called (snd st) ++ contextCancels (fst st) = seq 0 (issued (snd st)).

(** What happens between two calls of StopProvider: a request is served,
    or someone other than the server calls a cancel function, as a caller
    does who cancels the context it sent. *)
Inductive Event : Type :=
| Serve (ctx : Context)
| Outside (cancel : CancelFunc).

Definition happen (st : State) (e : Event) : State :=
  match e with
  | Serve in_ => snd (registerContext in_ st)
  | Outside cancel => (fst st, call cancel (snd st))
  end.

Definition after (es : list Event) (st : State) : State :=
  fold_left happen es st.

(** None of the events is a call of [own] from outside.  The cancel
    function [registerContext] makes is stored in [contextCancels] and
    nowhere else, so nobody but the server can call it. *)
Definition spares (own : CancelFunc) (es : list Event) : bool :=
  forallb (fun e => match e with
                    | Serve _ => true
                    | Outside cancel => negb (Nat.eqb cancel own)
                    end) es.

End registry.

(** ** The handler ReadResource

    serve.go, lines 193-234, after the context is registered and set up
    for logging. *)

Module handlers.

Section ReadResource.
(** What the handler passes along: the types of fwserver, fromproto6,
    toproto6 and tfprotov6. *)
Variables ResourceType Schema Request Others : Type.
Variables ProtoRequest ProtoResponse : Type.

Local Abbreviation Diagnostics := (diag.Diagnostics tftypes.AttributePath).

(** [fwserver.ReadResourceResponse]: its diagnostics and its other
    fields. *)
Record ReadResourceResponse : Type := {
  Diagnostics_ : Diagnostics;
  others : Others
}.

(** The methods of [fwserver.Server] the handler calls. *)
Record FrameworkServer : Type := {
  FrameworkServer_ResourceType : string -> ResourceType * Diagnostics;
  FrameworkServer_ResourceSchema : string -> Schema * Diagnostics;
  FrameworkServer_ProviderMetaSchema : option Schema * Diagnostics;
  FrameworkServer_ReadResource :
    Request -> ReadResourceResponse -> ReadResourceResponse
}.

(** The other fields of [&fwserver.ReadResourceResponse{}]. *)
Variable zero : Others.
Variable TypeName : ProtoRequest -> string.
Variable fromproto6_ReadResourceRequest :
  ProtoRequest -> ResourceType -> Schema -> option Schema ->
  Request * Diagnostics.
Variable toproto6_ReadResourceResponse : ReadResourceResponse -> ProtoResponse.

(** [fwResp.Diagnostics.Append(diags...)]. *)
Definition Append (fwResp : ReadResourceResponse) (diags : Diagnostics)
  : ReadResourceResponse :=
  {| Diagnostics_ := diag.Append (Diagnostics_ fwResp) diags;
     others := others fwResp |}.

Definition ReadResource (s : FrameworkServer) (proto6Req : ProtoRequest)
  : ProtoResponse :=
  let fwResp := {| Diagnostics_ := []; others := zero |} in
  let '(resourceType, diags) :=
    FrameworkServer_ResourceType s (TypeName proto6Req) in
  let fwResp := Append fwResp diags in
  if diag.HasError (Diagnostics_ fwResp) then
    toproto6_ReadResourceResponse fwResp
  else
  let '(resourceSchema, diags) :=
    FrameworkServer_ResourceSchema s (TypeName proto6Req) in
  let fwResp := Append fwResp diags in
  if diag.HasError (Diagnostics_ fwResp) then
    toproto6_ReadResourceResponse fwResp
  else
  let '(providerMetaSchema, diags) := FrameworkServer_ProviderMetaSchema s in
  let fwResp := Append fwResp diags in
  if diag.HasError (Diagnostics_ fwResp) then
    toproto6_ReadResourceResponse fwResp
  else
  let '(fwReq, diags) :=
    fromproto6_ReadResourceRequest proto6Req resourceType resourceSchema
      providerMetaSchema in
  let fwResp := Append fwResp diags in
  if diag.HasError (Diagnostics_ fwResp) then
    toproto6_ReadResourceResponse fwResp
  else
  toproto6_ReadResourceResponse (FrameworkServer_ReadResource s fwReq fwResp).

(** The diagnostics of the four steps before the framework's
    ReadResource, in the order of the code. *)
Definition preparation (s : FrameworkServer) (proto6Req : ProtoRequest)
  : list Diagnostics :=
  let name := TypeName proto6Req in
  [ snd (FrameworkServer_ResourceType s name);
    snd (FrameworkServer_ResourceSchema s name);
    snd (FrameworkServer_ProviderMetaSchema s);
    snd (fromproto6_ReadResourceRequest proto6Req
           (fst (FrameworkServer_ResourceType s name))
           (fst (FrameworkServer_ResourceSchema s name))
           (fst (FrameworkServer_ProviderMetaSchema s))) ].

(** The request the framework's ReadResource is given. *)
Definition converted (s : FrameworkServer) (proto6Req : ProtoRequest)
  : Request :=
  let name := TypeName proto6Req in
  fst (fromproto6_ReadResourceRequest proto6Req
         (fst (FrameworkServer_ResourceType s name))
         (fst (FrameworkServer_ResourceSchema s name))
         (fst (FrameworkServer_ProviderMetaSchema s))).

End ReadResource.

End handlers.

(** ** The end of a Go string *)

Module GoSuffix.

(** The last [n] bytes of a string, the last one first. *)
Definition ending (n : nat) (s : string) : list ascii :=
  firstn n (rev (list_ascii_of_string s)).

End GoSuffix.

(** * Part II: the properties *)

Unset Implicit Arguments.

(** ** The order on Go strings *)

Module GoStringFacts.
Import GoString.

Lemma ltb_lts s t : String.ltb s t = true <-> String_as_OT.lt s t.
Proof.
  unfold String.ltb. rewrite <- String_as_OT.cmp_lt. unfold String_as_OT.cmp.
  destruct (String.compare s t); split; congruence.
Qed.

Lemma lt_trans s t u : lt s t -> lt t u -> lt s u.
Proof.
  unfold lt. rewrite !ltb_lts. apply String_as_OT.lt_trans.
Qed.

Lemma lt_irrefl s : ~ lt s s.
Proof.
  unfold lt. rewrite ltb_lts. intro H.
  exact (String_as_OT.lt_not_eq s s H eq_refl).
Qed.

(** Not less either way means equal: the order is total. *)
Lemma ltb_false_antisym s t :
  String.ltb s t = false -> String.ltb t s = false -> s = t.
Proof.
  unfold String.ltb. rewrite (String.compare_antisym t s).
  destruct (String.compare s t) eqn:E; simpl; try discriminate.
  intros _ _. now apply String.compare_eq_iff.
Qed.

Lemma ltb_false_cases s t :
  String.ltb t s = false -> s = t \/ lt s t.
Proof.
  intro H. destruct (String.ltb s t) eqn:E.
  - now right.
  - left. now apply ltb_false_antisym.
Qed.

Lemma lt_asym s t : lt s t -> String.ltb t s = false.
Proof.
  intro H. destruct (String.ltb t s) eqn:E; [|reflexivity].
  exfalso. exact (lt_irrefl _ (lt_trans _ _ _ H E)).
Qed.

Lemma le_trans s t u :
  String.ltb t s = false -> String.ltb u t = false -> String.ltb u s = false.
Proof.
  intros H1 H2.
  destruct (ltb_false_cases _ _ H1) as [->|L1]; [assumption|].
  destruct (ltb_false_cases _ _ H2) as [->|L2]; [assumption|].
  apply lt_asym. eapply lt_trans; eassumption.
Qed.

Lemma append_assoc (x y z : string) :
  ((x ++ y) ++ z = x ++ (y ++ z))%string.
Proof.
  induction x as [|c x IH]; simpl; [reflexivity|]. now rewrite IH.
Qed.

End GoStringFacts.

(** ** Insertion sort meets the contract of sort.Slice *)

Module sortFacts.
Import sort.

Section WithLess.
Variable A : Type.
Variable less : A -> A -> bool.
Hypothesis less_asym : forall a b, less a b = true -> less b a = false.

Lemma insert_Permutation (a : A) (x : list A) :
  Permutation (a :: x) (insert less a x).
Proof.
  induction x as [|b x IH]; simpl; [apply Permutation_refl|].
  destruct (less a b); [apply Permutation_refl|].
  eapply perm_trans; [apply perm_swap|]. now apply perm_skip.
Qed.

Lemma insert_IsSorted (a : A) (x : list A) :
  IsSorted less x -> IsSorted less (insert less a x).
Proof.
  unfold IsSorted. induction x as [|b x IH]; simpl; intro Hs.
  - repeat constructor.
  - destruct (less a b) eqn:E.
    + constructor; [exact Hs|]. constructor. now apply less_asym.
    + inversion Hs as [|? ? Hs' Hd]; subst. constructor; [now apply IH|].
      destruct x as [|c x]; simpl.
      * constructor. exact E.
      * destruct (less a c); constructor; [exact E|].
        now inversion Hd.
Qed.

Lemma insertionSort_Sorts : Sorts less (insertionSort less).
Proof.
  intro x. induction x as [|a x [IHp IHs]]; simpl.
  - split; [apply Permutation_refl|constructor].
  - split.
    + eapply perm_trans; [apply perm_skip, IHp|apply insert_Permutation].
    + now apply insert_IsSorted.
Qed.

End WithLess.

End sortFacts.

(** ** normaliseRequiresReplace *)

Module NormaliseFacts.
Import Normalise.

Section WithPath.
Variable AttributePath : Type.
Variable AttributePath_String : AttributePath -> string.
Variable AttributePath_Equal : AttributePath -> AttributePath -> bool.

Local Abbreviation key := AttributePath_String.
Local Abbreviation Equal := AttributePath_Equal.
Local Abbreviation le := (fun a b => less key b a = false).
Local Abbreviation asc := (Ascending key).
Local Abbreviation coherent := (EqualByString key Equal).

Lemma le_Transitive : Relations_1.Transitive le.
Proof.
  intros a b c Hab Hbc. unfold less in *.
  eapply GoStringFacts.le_trans; eassumption.
Qed.

Lemma IsSorted_StronglySorted (l : list AttributePath) :
  sort.IsSorted (less key) l -> StronglySorted le l.
Proof.
  apply Sorted_StronglySorted. exact le_Transitive.
Qed.

Lemma coherent_incl (l l' : list AttributePath) :
  incl l' l -> coherent l -> coherent l'.
Proof.
  intros Hi Hc a b Ha Hb. apply Hc; apply Hi; assumption.
Qed.

Lemma coherent_refl (l : list AttributePath) a :
  coherent l -> In a l -> Equal a a = true.
Proof.
  intros Hc Ha. now apply (Hc a a Ha Ha).
Qed.

Lemma dedup_incl prev (l : list AttributePath) :
  incl (dedup Equal prev l) l.
Proof.
  revert prev. induction l as [|r l IH]; intros prev; simpl.
  - apply incl_refl.
  - destruct (Equal r prev).
    + apply incl_tl, IH.
    + apply incl_cons; [now left|]. apply incl_tl, IH.
Qed.

(** The loop keeps a sorted slice sorted. *)
Lemma dedup_sorted (l : list AttributePath) : forall prev,
  StronglySorted le (prev :: l) ->
  StronglySorted le (prev :: dedup Equal prev l).
Proof.
  induction l as [|r l IH]; intros prev Hs; simpl; [exact Hs|].
  inversion Hs as [|? ? Hs' Hall]; subst.
  inversion Hs' as [|? ? Hs'' Hall']; subst.
  inversion Hall as [|? ? Hpr Hall'']; subst.
  destruct (Equal r prev).
  - apply IH. now constructor.
  - constructor; [now apply IH|].
    constructor; [exact Hpr|].
    rewrite Forall_forall in *. intros y Hy.
    apply Hall''. now apply (dedup_incl r l).
Qed.

(** On a sorted slice the loop leaves strictly increasing renderings. *)
Lemma dedup_Ascending (l : list AttributePath) : forall prev,
  coherent (prev :: l) -> StronglySorted le (prev :: l) ->
  asc (prev :: dedup Equal prev l).
Proof.
  induction l as [|r l IH]; intros prev Hc Hs; simpl.
  - repeat constructor.
  - inversion Hs as [|? ? Hs' Hall]; subst.
    inversion Hs' as [|? ? Hs'' Hall']; subst.
    inversion Hall as [|? ? Hpr Hall'']; subst.
    destruct (Equal r prev) eqn:E.
    + apply IH.
      * eapply coherent_incl; [|exact Hc].
        intros x [->|Hx]; [now left|now right; right].
      * constructor; assumption.
    + assert (Hlt : GoString.lt (key prev) (key r)).
      { destruct (GoStringFacts.ltb_false_cases _ _ Hpr) as [Heq|Hlt];
          [|exact Hlt].
        exfalso. assert (Equal r prev = true); [|congruence].
        apply Hc; [now right; left|now left|now symmetry]. }
      assert (Hr : asc (r :: dedup Equal r l)).
      { apply IH; [|assumption].
        eapply coherent_incl; [|exact Hc]. apply incl_tl, incl_refl. }
      constructor; [exact Hr|].
      constructor; [exact Hlt|].
      inversion Hr as [|? ? _ Hall3]; subst.
      eapply Forall_impl; [|exact Hall3].
      intros y Hy. eapply GoStringFacts.lt_trans; eassumption.
Qed.

(** Every rendering of the input survives the loop. *)
Lemma dedup_keeps_keys (l : list AttributePath) : forall prev x,
  coherent (prev :: l) -> In x (prev :: l) ->
  exists y, In y (prev :: dedup Equal prev l) /\ key y = key x.
Proof.
  induction l as [|r l IH]; intros prev x Hc Hx; simpl.
  - exists x. split; [exact Hx|reflexivity].
  - destruct Hx as [->|[->|Hx]].
    + exists x. split; [now left|reflexivity].
    + destruct (Equal x prev) eqn:E.
      * exists prev. split; [now left|].
        symmetry. apply Hc; [now right; left|now left|exact E].
      * exists x. split; [now right; left|reflexivity].
    + destruct (Equal r prev) eqn:E.
      * apply IH; [|now right].
        eapply coherent_incl; [|exact Hc].
        intros z [->|Hz]; [now left|now right; right].
      * destruct (IH r x) as [y [Hy Hk]]; [| now right |].
        { eapply coherent_incl; [|exact Hc]. apply incl_tl, incl_refl. }
        exists y. split; [now right|exact Hk].
Qed.

(** On strictly increasing renderings the loop drops nothing. *)
Lemma dedup_Ascending_id (l : list AttributePath) : forall prev,
  coherent (prev :: l) -> asc (prev :: l) -> dedup Equal prev l = l.
Proof.
  induction l as [|r l IH]; intros prev Hc Hs; simpl; [reflexivity|].
  inversion Hs as [|? ? Hs' Hall]; subst.
  inversion Hall as [|? ? Hpr _]; subst.
  destruct (Equal r prev) eqn:E.
  - exfalso. assert (Hk : key r = key prev).
    { apply Hc; [now right; left|now left|exact E]. }
    rewrite Hk in Hpr. exact (GoStringFacts.lt_irrefl _ Hpr).
  - f_equal. apply IH; [|exact Hs'].
    eapply coherent_incl; [|exact Hc]. apply incl_tl, incl_refl.
Qed.

(** Two strictly increasing lists of strings with the same members are
    the same list. *)
Lemma increasing_unique (k1 : list string) : forall k2,
  StronglySorted GoString.lt k1 -> StronglySorted GoString.lt k2 ->
  (forall s, In s k1 <-> In s k2) -> k1 = k2.
Proof.
  induction k1 as [|a k1 IH]; intros [|b k2] H1 H2 Hm.
  - reflexivity.
  - exfalso. apply (proj2 (Hm b)). now left.
  - exfalso. apply (proj1 (Hm a)). now left.
  - inversion H1 as [|? ? H1' A1]; subst.
    inversion H2 as [|? ? H2' A2]; subst.
    rewrite Forall_forall in A1, A2.
    assert (Hab : a = b).
    { destruct (proj1 (Hm a) (or_introl eq_refl)) as [Hba|Ha]; [now symmetry|].
      destruct (proj2 (Hm b) (or_introl eq_refl)) as [Hab|Hb]; [exact Hab|].
      exfalso. apply (GoStringFacts.lt_irrefl a).
      eapply GoStringFacts.lt_trans; [apply A1, Hb|apply A2, Ha]. }
    subst b. f_equal. apply IH; [assumption|assumption|].
    intro s. split; intro Hs.
    + destruct (proj1 (Hm s) (or_intror Hs)) as [<-|Hs']; [|exact Hs'].
      exfalso. exact (GoStringFacts.lt_irrefl _ (A1 _ Hs)).
    + destruct (proj2 (Hm s) (or_intror Hs)) as [<-|Hs']; [|exact Hs'].
      exfalso. exact (GoStringFacts.lt_irrefl _ (A2 _ Hs)).
Qed.

Lemma Ascending_map (l : list AttributePath) :
  asc l -> StronglySorted GoString.lt (map key l).
Proof.
  induction 1 as [|a l Hs IH Hall]; simpl; constructor; [exact IH|].
  rewrite Forall_forall in *. intros s Hs'.
  apply in_map_iff in Hs' as [y [<- Hy]]. now apply Hall.
Qed.

Lemma Ascending_same_keys (xs ys : list AttributePath) :
  asc xs -> asc ys ->
  (forall x, In x xs -> exists y, In y ys /\ key y = key x) ->
  (forall y, In y ys -> exists x, In x xs /\ key x = key y) ->
  map key xs = map key ys.
Proof.
  intros Hx Hy Hxy Hyx. apply increasing_unique; try now apply Ascending_map.
  intro s. rewrite !in_map_iff. split; intros [z [<- Hz]].
  - destruct (Hxy z Hz) as [y [Hy' Hk]]. now exists y.
  - destruct (Hyx z Hz) as [x [Hx' Hk]]. now exists x.
Qed.

Lemma map_key_Forall2 (xs : list AttributePath) : forall ys,
  map key xs = map key ys -> Forall2 (fun a b => key a = key b) xs ys.
Proof.
  induction xs as [|x xs IH]; intros [|y ys] H; simpl in H;
    try discriminate; constructor.
  - now injection H.
  - apply IH. now injection H.
Qed.

(** A sorted permutation of a strictly increasing slice is that slice. *)
Lemma sorted_Ascending_id (l : list AttributePath) : forall l',
  asc l -> Permutation l l' -> StronglySorted le l' -> l' = l.
Proof.
  induction l as [|a l IH]; intros l' Ha Hp Hs.
  - apply Permutation_nil in Hp. now subst.
  - destruct l' as [|b l'].
    { apply Permutation_sym, Permutation_nil in Hp. discriminate. }
    inversion Ha as [|? ? Ha' Aa]; subst.
    inversion Hs as [|? ? Hs' As]; subst.
    rewrite Forall_forall in Aa, As.
    assert (Hab : b = a).
    { assert (Hb : In b (a :: l)).
      { eapply Permutation_in; [apply Permutation_sym, Hp|now left]. }
      destruct Hb as [->|Hb]; [reflexivity|]. exfalso.
      assert (Ha2 : In a (b :: l')).
      { eapply Permutation_in; [exact Hp|now left]. }
      pose proof (Aa _ Hb) as Hlt.
      destruct Ha2 as [->|Ha2]; [exact (GoStringFacts.lt_irrefl _ Hlt)|].
      pose proof (As _ Ha2) as Hle. unfold less in Hle.
      unfold GoString.lt in Hlt. congruence. }
    subst b. f_equal. apply IH; [assumption| |assumption].
    eapply Permutation_cons_inv; exact Hp.
Qed.

Lemma keepFirst_dedup (l : list AttributePath) : forall seen prev,
  In prev seen -> Forall (fun y => le y prev) seen ->
  StronglySorted le (prev :: l) -> coherent (seen ++ l) ->
  dedup Equal prev l = keepFirst Equal seen l.
Proof.
  induction l as [|r l IH]; intros seen prev Hin Hle Hs Hc; simpl;
    [reflexivity|].
  inversion Hs as [|? ? Hs' Hall]; subst.
  inversion Hall as [|? ? Hpr Hall']; subst.
  inversion Hs' as [|? ? Hs'' Hall'']; subst.
  rewrite Forall_forall in Hle.
  assert (Hc' : coherent ((r :: seen) ++ l)).
  { eapply coherent_incl; [|exact Hc]. intros x [->|Hx].
    - apply in_or_app. right. now left.
    - apply in_app_or in Hx as [Hx|Hx]; apply in_or_app;
        [now left|now right; right]. }
  assert (Hagree : Equal r prev = existsb (Equal r) seen).
  { destruct (Equal r prev) eqn:E; symmetry.
    - apply existsb_exists. now exists prev.
    - apply not_true_is_false. intro Hex.
      apply existsb_exists in Hex as [y [Hy Hry]].
      assert (Hk : key r = key y).
      { apply Hc; [apply in_or_app; right; now left
                  |apply in_or_app; now left|exact Hry]. }
      assert (Hk' : key r = key prev).
      { pose proof (Hle _ Hy) as Hyp. unfold less in Hyp, Hpr.
        rewrite <- Hk in Hyp. symmetry.
        now apply GoStringFacts.ltb_false_antisym. }
      assert (Equal r prev = true); [|congruence].
      apply Hc; [apply in_or_app; right; now left
                |apply in_or_app; now left|exact Hk']. }
  rewrite <- Hagree. destruct (Equal r prev) eqn:E.
  - apply IH; [now right| |now constructor|exact Hc'].
    apply Forall_forall. intros y [<-|Hy]; [|now apply Hle].
    assert (Hk : key r = key prev).
    { apply Hc; [apply in_or_app; right; now left
                |apply in_or_app; now left|exact E]. }
    unfold less. rewrite Hk.
    apply not_true_is_false. apply GoStringFacts.lt_irrefl.
  - f_equal. apply IH; [now left| |assumption|exact Hc'].
    apply Forall_forall. intros y [<-|Hy].
    + unfold less. apply not_true_is_false. apply GoStringFacts.lt_irrefl.
    + eapply le_Transitive; [apply Hle, Hy|exact Hpr].
Qed.

Lemma Ascending_Deduplicated (l : list AttributePath) :
  coherent l -> asc l -> Deduplicated Equal l.
Proof.
  intros Hc Ha. induction Ha as [|a l Ha IH Hall]; [constructor|].
  constructor.
  - rewrite Forall_forall in *. intros b Hb. pose proof (Hall _ Hb) as Hlt.
    split; apply not_true_is_false; intro E.
    + apply Hc in E; [|now left|now right]. rewrite E in Hlt.
      exact (GoStringFacts.lt_irrefl _ Hlt).
    + apply Hc in E; [|now right|now left]. rewrite E in Hlt.
      exact (GoStringFacts.lt_irrefl _ Hlt).
  - apply IH. eapply coherent_incl; [|exact Hc]. apply incl_tl, incl_refl.
Qed.

Lemma Ascending_split (l1 l2 : list AttributePath) y :
  asc (l1 ++ y :: l2) ->
  Forall (fun z => GoString.lt (key z) (key y)) l1 /\
  Forall (fun z => GoString.lt (key y) (key z)) l2.
Proof.
  induction l1 as [|a l1 IH]; simpl; intro H;
    inversion H as [|? ? H' Hall]; subst.
  - split; [constructor|exact Hall].
  - destruct (IH H') as [H1 H2]. split; [|exact H2].
    constructor; [|exact H1].
    rewrite Forall_forall in Hall. apply Hall, in_or_app. right. now left.
Qed.

Section WithSort.
Variable sort_Slice : list AttributePath -> list AttributePath.
Hypothesis sort_Slice_Sorts : sort.Sorts (less key) sort_Slice.

Local Abbreviation normalise :=
  (normaliseRequiresReplace Equal sort_Slice).

Lemma normalise_short (rs : list AttributePath) :
  (List.length rs < 2)%nat -> normalise rs = rs.
Proof.
  intro H. unfold normaliseRequiresReplace.
  now apply Nat.ltb_lt in H as ->.
Qed.

Lemma sort_Slice_short (rs : list AttributePath) :
  (List.length rs < 2)%nat -> sort_Slice rs = rs.
Proof.
  intro H. destruct (sort_Slice_Sorts rs) as [Hp _].
  destruct rs as [|a [|b rs]]; simpl in H; try lia.
  - now apply Permutation_nil in Hp.
  - now apply Permutation_length_1_inv in Hp.
Qed.

(** What the function returns on longer input, with the sorted slice
    named. *)
Lemma normalise_long (rs : list AttributePath) :
  (2 <= List.length rs)%nat ->
  exists r0 rs', sort_Slice rs = r0 :: rs' /\
                 normalise rs = r0 :: dedup Equal r0 rs'.
Proof.
  intro H. unfold normaliseRequiresReplace.
  apply Nat.ltb_ge in H as Hb. rewrite Hb.
  destruct (sort_Slice_Sorts rs) as [Hp _].
  destruct (sort_Slice rs) as [|r0 rs'] eqn:E.
  - apply Permutation_sym, Permutation_nil in Hp. subst. simpl in H. lia.
  - now exists r0, rs'.
Qed.

Lemma sort_Slice_incl (rs : list AttributePath) : incl (sort_Slice rs) rs.
Proof.
  intros x Hx. destruct (sort_Slice_Sorts rs) as [Hp _].
  eapply Permutation_in; [apply Permutation_sym, Hp|exact Hx].
Qed.

Lemma normalise_incl (rs : list AttributePath) : incl (normalise rs) rs.
Proof.
  destruct (Nat.lt_ge_cases (List.length rs) 2) as [H|H].
  - rewrite normalise_short by exact H. apply incl_refl.
  - destruct (normalise_long _ H) as [r0 [rs' [E ->]]].
    eapply incl_tran; [|apply sort_Slice_incl]. rewrite E.
    apply incl_cons; [now left|]. apply incl_tl, dedup_incl.
Qed.

Lemma normalise_IsSorted (rs : list AttributePath) :
  sort.IsSorted (less key) (normalise rs).
Proof.
  destruct (Nat.lt_ge_cases (List.length rs) 2) as [H|H].
  - rewrite normalise_short by exact H.
    destruct rs as [|a [|b rs]]; simpl in H; try lia; repeat constructor.
  - destruct (normalise_long _ H) as [r0 [rs' [E ->]]].
    destruct (sort_Slice_Sorts rs) as [_ Hs]. rewrite E in Hs.
    apply StronglySorted_Sorted, dedup_sorted.
    now apply IsSorted_StronglySorted.
Qed.

Lemma normalise_Ascending (rs : list AttributePath) :
  coherent rs -> asc (normalise rs).
Proof.
  intro Hc. destruct (Nat.lt_ge_cases (List.length rs) 2) as [H|H].
  - rewrite normalise_short by exact H.
    destruct rs as [|a [|b rs]]; simpl in H; try lia; repeat constructor.
  - destruct (normalise_long _ H) as [r0 [rs' [E ->]]].
    destruct (sort_Slice_Sorts rs) as [_ Hs]. rewrite E in Hs.
    apply dedup_Ascending; [|now apply IsSorted_StronglySorted].
    eapply coherent_incl; [|exact Hc]. rewrite <- E. apply sort_Slice_incl.
Qed.

Lemma normalise_keeps_keys (rs : list AttributePath) x :
  coherent rs -> In x rs ->
  exists y, In y (normalise rs) /\ key y = key x.
Proof.
  intros Hc Hx. destruct (Nat.lt_ge_cases (List.length rs) 2) as [H|H].
  - rewrite normalise_short by exact H. now exists x.
  - destruct (normalise_long _ H) as [r0 [rs' [E ->]]].
    destruct (sort_Slice_Sorts rs) as [Hp _]. rewrite E in Hp.
    apply dedup_keeps_keys; [|eapply Permutation_in; eassumption].
    eapply coherent_incl; [|exact Hc]. rewrite <- E. apply sort_Slice_incl.
Qed.

Lemma normalise_keepFirst (rs : list AttributePath) :
  coherent rs -> normalise rs = keepFirst Equal [] (sort_Slice rs).
Proof.
  intro Hc. destruct (Nat.lt_ge_cases (List.length rs) 2) as [H|H].
  - rewrite normalise_short, sort_Slice_short by exact H.
    destruct rs as [|a [|b rs]]; simpl in H; try lia; reflexivity.
  - destruct (normalise_long _ H) as [r0 [rs' [E ->]]]. rewrite E. simpl.
    destruct (sort_Slice_Sorts rs) as [_ Hs]. rewrite E in Hs.
    f_equal. apply keepFirst_dedup.
    + now left.
    + constructor; [|constructor]. unfold less.
      apply not_true_is_false. apply GoStringFacts.lt_irrefl.
    + now apply IsSorted_StronglySorted.
    + eapply coherent_incl; [|exact Hc]. simpl. rewrite <- E.
      apply sort_Slice_incl.
Qed.

Lemma normalise_idempotent (rs : list AttributePath) :
  coherent rs -> normalise (normalise rs) = normalise rs.
Proof.
  intro Hc. pose proof (normalise_Ascending _ Hc) as Ha.
  assert (Hc' : coherent (normalise rs)).
  { eapply coherent_incl; [apply normalise_incl|exact Hc]. }
  set (l := normalise rs) in *.
  destruct (Nat.lt_ge_cases (List.length l) 2) as [H|H].
  - now apply normalise_short.
  - destruct (normalise_long _ H) as [r0 [rs' [E ->]]].
    destruct (sort_Slice_Sorts l) as [Hp Hs].
    assert (El : sort_Slice l = l).
    { apply sorted_Ascending_id; [exact Ha|exact Hp|].
      now apply IsSorted_StronglySorted. }
    rewrite El in E. rewrite E in *. f_equal.
    now apply dedup_Ascending_id.
Qed.

Lemma normalise_Permutation (rs rs' : list AttributePath) :
  coherent rs -> Permutation rs rs' ->
  EqualLists Equal (normalise rs') (normalise rs).
Proof.
  intros Hc Hp.
  assert (Hc' : coherent rs').
  { eapply coherent_incl; [|exact Hc]. intros x Hx.
    eapply Permutation_in; [apply Permutation_sym, Hp|exact Hx]. }
  assert (Hk : map key (normalise rs') = map key (normalise rs)).
  { apply Ascending_same_keys; try now apply normalise_Ascending.
    - intros x Hx. apply normalise_keeps_keys; [exact Hc|].
      eapply Permutation_in; [apply Permutation_sym, Hp|].
      now apply normalise_incl.
    - intros y Hy. apply normalise_keeps_keys; [exact Hc'|].
      eapply Permutation_in; [exact Hp|]. now apply normalise_incl. }
  apply map_key_Forall2 in Hk. unfold EqualLists.
  assert (H1 : incl (normalise rs') rs).
  { intros x Hx. eapply Permutation_in; [apply Permutation_sym, Hp|].
    now apply normalise_incl. }
  pose proof (normalise_incl rs) as H2.
  revert H1 H2. induction Hk as [|a b xs ys Hab Hk IH]; intros H1 H2;
    constructor.
  - apply Hc; [apply H1; now left|apply H2; now left|exact Hab].
  - apply IH; [eapply incl_tran; [|exact H1]|eapply incl_tran; [|exact H2]];
      apply incl_tl, incl_refl.
Qed.

(** Each input path has one entry equal to it, standing where its
    rendering sorts. *)
Lemma normalise_position (rs : list AttributePath) x :
  coherent rs -> In x rs ->
  exists before y after,
    normalise rs = before ++ y :: after /\ Equal y x = true /\
    Forall (fun z => GoString.lt (key z) (key x)) before /\
    Forall (fun z => GoString.lt (key x) (key z)) after.
Proof.
  intros Hc Hx. destruct (normalise_keeps_keys _ _ Hc Hx) as [y [Hy Hk]].
  destruct (in_split _ _ Hy) as [l1 [l2 E]]. exists l1, y, l2.
  split; [exact E|]. split.
  - apply Hc; [apply (normalise_incl rs), Hy|exact Hx|exact Hk].
  - rewrite <- Hk. apply Ascending_split. rewrite <- E.
    now apply normalise_Ascending.
Qed.

Lemma normalise_Permutation_eq (rs rs' : list AttributePath) :
  coherent rs ->
  (forall a b, In a rs -> In b rs -> Equal a b = true -> a = b) ->
  Permutation rs rs' -> normalise rs' = normalise rs.
Proof.
  intros Hc He Hp. pose proof (normalise_Permutation _ _ Hc Hp) as HF.
  assert (H1 : incl (normalise rs') rs).
  { intros x Hx. eapply Permutation_in; [apply Permutation_sym, Hp|].
    now apply normalise_incl. }
  pose proof (normalise_incl rs) as H2. unfold EqualLists in HF.
  revert H1 H2. induction HF as [|x y xs ys Hxy HF IH]; intros H1 H2;
    [reflexivity|].
  f_equal.
  - apply He; [apply H1; now left|apply H2; now left|exact Hxy].
  - apply IH; [eapply incl_tran; [|exact H1]|eapply incl_tran; [|exact H2]];
      apply incl_tl, incl_refl.
Qed.

Lemma normalise_represents (rs : list AttributePath) x :
  coherent rs -> In x rs ->
  exists y, In y (normalise rs) /\ Equal y x = true.
Proof.
  intros Hc Hx. destruct (normalise_keeps_keys _ _ Hc Hx) as [y [Hy Hk]].
  exists y. split; [exact Hy|].
  apply Hc; [now apply (normalise_incl rs)|exact Hx|exact Hk].
Qed.

Lemma normalise_Deduplicated (rs : list AttributePath) :
  coherent rs -> Deduplicated Equal (normalise rs).
Proof.
  intro Hc. apply Ascending_Deduplicated; [|now apply normalise_Ascending].
  eapply coherent_incl; [apply normalise_incl|exact Hc].
Qed.

End WithSort.

End WithPath.

(** The paths [b], [a], [a], [c] of the scenario, in the order they are
    appended. *)
Lemma scenario_EqualByString :
  EqualByString Sample.AttributePath_String Sample.AttributePath_Equal
    [Scenario.b; Scenario.a; Scenario.a; Scenario.c].
Proof.
  intros x y Hx Hy. simpl in Hx, Hy.
  repeat (destruct Hx as [Hx|Hx]; [subst x|]); try contradiction;
    repeat (destruct Hy as [Hy|Hy]; [subst y|]); try contradiction;
    vm_compute; split; intro H; try reflexivity; discriminate.
Qed.

Lemma Sample_less_asym (x y : tftypes.AttributePath) :
  less Sample.AttributePath_String x y = true ->
  less Sample.AttributePath_String y x = false.
Proof.
  unfold less. apply GoStringFacts.lt_asym.
Qed.

(** C2.  An input of fewer than two paths comes back as it is.  For a
    [sort.Slice] that sorts, the result is sorted by rendering and holds
    only input paths; on paths whose equality is equality of their
    renderings, moreover, the renderings ascend strictly, no two entries
    are equal paths, the result is the sorted input with each entry that
    equals an earlier one dropped, and every input path has an equal in
    it.  The paths [b], [a], [a], [c] come back as [a], [b], [c]. *)
Theorem normalise_sorts_and_deduplicates :
  (forall (AttributePath : Type)
          (AttributePath_String : AttributePath -> string)
          (AttributePath_Equal : AttributePath -> AttributePath -> bool)
          (sort_Slice : list AttributePath -> list AttributePath)
          (rs : list AttributePath),
     let out := normaliseRequiresReplace AttributePath_Equal sort_Slice rs in
     ((List.length rs < 2)%nat -> out = rs) /\
     (sort.Sorts (less AttributePath_String) sort_Slice ->
      sort.IsSorted (less AttributePath_String) out /\
      incl out rs /\
      (EqualByString AttributePath_String AttributePath_Equal rs ->
       Ascending AttributePath_String out /\
       Deduplicated AttributePath_Equal out /\
       out = keepFirst AttributePath_Equal [] (sort_Slice rs) /\
       (forall x, In x rs ->
                  exists y, In y out /\ AttributePath_Equal y x = true)))) /\
  normaliseRequiresReplace Sample.AttributePath_Equal
    (sort.insertionSort (less Sample.AttributePath_String))
    [Scenario.b; Scenario.a; Scenario.a; Scenario.c]
  = [Scenario.a; Scenario.b; Scenario.c].
Proof.
  split; [|reflexivity].
  intros AttributePath key Equal sort_Slice rs out. subst out.
  split; [apply normalise_short|]. intro Hsort.
  split; [now apply normalise_IsSorted|].
  split; [now apply normalise_incl with (AttributePath_String := key)|].
  intro Hc. repeat split.
  - now apply normalise_Ascending.
  - now apply normalise_Deduplicated with (AttributePath_String := key).
  - now apply normalise_keepFirst with (AttributePath_String := key).
  - intros x Hx.
    now apply normalise_represents with (AttributePath_String := key).
Qed.

(** C3.  Under the same two conditions normalising twice is normalising
    once; a permutation of the input gives entrywise equal paths, and the
    very same list when equal paths are identical; and each input path has
    an equal in the result with the smaller renderings before it and the
    larger ones after it. *)
Theorem normalise_idempotent_and_order_independent
  (AttributePath : Type)
  (AttributePath_String : AttributePath -> string)
  (AttributePath_Equal : AttributePath -> AttributePath -> bool)
  (sort_Slice : list AttributePath -> list AttributePath)
  (rs : list AttributePath) :
  sort.Sorts (less AttributePath_String) sort_Slice ->
  EqualByString AttributePath_String AttributePath_Equal rs ->
  let normalise := normaliseRequiresReplace AttributePath_Equal sort_Slice in
  normalise (normalise rs) = normalise rs /\
  (forall rs',
     Permutation rs rs' ->
     EqualLists AttributePath_Equal (normalise rs') (normalise rs)) /\
  ((forall a b, In a rs -> In b rs -> AttributePath_Equal a b = true -> a = b) ->
   forall rs', Permutation rs rs' -> normalise rs' = normalise rs) /\
  (forall x,
     In x rs ->
     exists before y after,
       normalise rs = before ++ y :: after /\
       AttributePath_Equal y x = true /\
       Forall (fun z => GoString.lt (AttributePath_String z)
                          (AttributePath_String x)) before /\
       Forall (fun z => GoString.lt (AttributePath_String x)
                          (AttributePath_String z)) after).
Proof.
  intros Hsort Hc normalise. subst normalise. repeat split.
  - now apply normalise_idempotent with (AttributePath_String := AttributePath_String).
  - intros rs' Hp.
    now apply normalise_Permutation with (AttributePath_String := AttributePath_String).
  - intros He rs' Hp.
    now apply normalise_Permutation_eq
      with (AttributePath_String := AttributePath_String).
  - intros x Hx. now apply normalise_position.
Qed.

End NormaliseFacts.

(** ** Errors *)

Module errorsFacts.
Import errors.

Lemma eqb_refl (e : error) : eqb e e = true.
Proof.
  induction e as [| |s|s e IH]; simpl; try reflexivity.
  - apply String.eqb_refl.
  - now rewrite String.eqb_refl, IH.
Qed.

Lemma Is_refl (e : error) : Is e e = true.
Proof.
  destruct e; simpl; rewrite ?String.eqb_refl, ?eqb_refl; reflexivity.
Qed.

(** An error made with [%w] is the error it wraps, for [errors.Is]. *)
Lemma Is_wrapError (text : string) (e : error) :
  Is (wrapError text e) e = true.
Proof.
  simpl. rewrite Is_refl. apply orb_true_r.
Qed.

End errorsFacts.

(** ** markComputedNilsAsUnknown *)

Module markFacts.
Import errors proto6server.

Section WithLibrary.
Context {T : Types} {L : Library}.

Lemma mark_null config resourceSchema path val configVal rest :
  (1 <= List.length path)%nat ->
  WalkAttributePath config path = (configVal, rest, None) ->
  tftypes.IsNull configVal = true ->
  markComputedNilsAsUnknown config resourceSchema path val
  = markBySchema resourceSchema path val.
Proof.
  intros Hlen Hw Hn. unfold markComputedNilsAsUnknown.
  apply Nat.ltb_ge in Hlen. rewrite Hlen, Hw, Hn. reflexivity.
Qed.

Lemma mark_invalid_step config resourceSchema path val configVal rest :
  (1 <= List.length path)%nat ->
  WalkAttributePath config path = (configVal, rest, Some ErrInvalidStep) ->
  markComputedNilsAsUnknown config resourceSchema path val
  = markBySchema resourceSchema path val.
Proof.
  intros Hlen Hw. unfold markComputedNilsAsUnknown.
  apply Nat.ltb_ge in Hlen. rewrite Hlen, Hw. reflexivity.
Qed.

Lemma mark_not_null config resourceSchema path val configVal rest :
  (1 <= List.length path)%nat ->
  WalkAttributePath config path = (configVal, rest, None) ->
  tftypes.IsNull configVal = false ->
  markComputedNilsAsUnknown config resourceSchema path val = (Some val, None).
Proof.
  intros Hlen Hw Hn. unfold markComputedNilsAsUnknown.
  apply Nat.ltb_ge in Hlen. rewrite Hlen, Hw, Hn. reflexivity.
Qed.

Lemma markBySchema_computed resourceSchema path val attribute :
  Schema_AttributeAtPath resourceSchema path = (attribute, None) ->
  tfsdk.Computed attribute = true ->
  markBySchema resourceSchema path val
  = (Some (tftypes.NewValue (tftypes.Type_of val) tftypes.UnknownValue), None).
Proof.
  intros Ha Hc. unfold markBySchema. rewrite Ha, Hc. reflexivity.
Qed.

Lemma markBySchema_not_computed resourceSchema path val attribute :
  Schema_AttributeAtPath resourceSchema path = (attribute, None) ->
  tfsdk.Computed attribute = false ->
  markBySchema resourceSchema path val = (Some val, None).
Proof.
  intros Ha Hc. unfold markBySchema. rewrite Ha, Hc. reflexivity.
Qed.

Lemma markBySchema_inside_atomic resourceSchema path val attribute err :
  Schema_AttributeAtPath resourceSchema path = (attribute, Some err) ->
  Is err ErrPathInsideAtomicAttribute = true ->
  markBySchema resourceSchema path val = (Some val, None).
Proof.
  intros Ha He. unfold markBySchema. rewrite Ha, He. reflexivity.
Qed.

Lemma markBySchema_failure resourceSchema path val attribute err :
  Schema_AttributeAtPath resourceSchema path = (attribute, Some err) ->
  Is err ErrPathInsideAtomicAttribute = false ->
  exists err',
    markBySchema resourceSchema path val = (None, Some err') /\
    Is err' err = true.
Proof.
  intros Ha He. unfold markBySchema. rewrite Ha, He.
  eexists. split; [reflexivity|]. apply errorsFacts.Is_wrapError.
Qed.

(** C1.  At a position of the plan of depth at least one, when the walk
    of the config by the same path gives a value or ends in the invalid
    step: if the config has a value there that is not null, the plan value
    is returned unchanged; otherwise the schema decides: a resolved
    attribute that is not computed leaves the value unchanged, a computed
    one replaces it by the unknown value of the same type, and a
    resolution error other than the path lying inside an atomic attribute
    is returned as an error, which wraps the schema's, with no value. *)
Theorem markComputedNilsAsUnknown_by_config
  (config : tftypes.Value) (resourceSchema : Schema)
  (path : tftypes.AttributePath) (val configVal : tftypes.Value)
  (rest : tftypes.AttributePath) (err : option error) :
  (1 <= List.length path)%nat ->
  WalkAttributePath config path = (configVal, rest, err) ->
  err = None \/ err = Some ErrInvalidStep ->
  let out := markComputedNilsAsUnknown config resourceSchema path val in
  (err = None -> tftypes.IsNull configVal = false -> out = (Some val, None)) /\
  (err = Some ErrInvalidStep \/ tftypes.IsNull configVal = true ->
   forall attribute,
     (Schema_AttributeAtPath resourceSchema path = (attribute, None) ->
      tfsdk.Computed attribute = false -> out = (Some val, None)) /\
     (Schema_AttributeAtPath resourceSchema path = (attribute, None) ->
      tfsdk.Computed attribute = true ->
      exists unknown,
        out = (Some unknown, None) /\
        tftypes.IsKnown unknown = false /\
        tftypes.Type_of unknown = tftypes.Type_of val) /\
     (forall err',
        Schema_AttributeAtPath resourceSchema path = (attribute, Some err') ->
        Is err' ErrPathInsideAtomicAttribute = false ->
        exists err'', out = (None, Some err'') /\ Is err'' err' = true)).
Proof.
  intros Hlen Hw Herr out. subst out. split.
  - intros -> Hn. eapply mark_not_null; eassumption.
  - intros Hcase attribute.
    assert (E : markComputedNilsAsUnknown config resourceSchema path val
                = markBySchema resourceSchema path val).
    { destruct Herr as [->| ->].
      - destruct Hcase as [Hcase|Hn]; [discriminate|].
        eapply mark_null; eassumption.
      - eapply mark_invalid_step; eassumption. }
    rewrite E. repeat split.
    + apply markBySchema_not_computed.
    + intros Ha Hc. eexists. split.
      * eapply markBySchema_computed; eassumption.
      * split; reflexivity.
    + intros err' Ha He. eapply markBySchema_failure; eassumption.
Qed.

(** C10.  When walking the config by the path of the position ends in the
    invalid-step error, the result is the one a null config value gives:
    the schema is consulted, a computed attribute is marked unknown, a
    path inside an atomic attribute leaves the value unchanged, and any
    other resolution error is returned. *)
Theorem markComputedNilsAsUnknown_invalid_step
  (config : tftypes.Value) (resourceSchema : Schema)
  (path : tftypes.AttributePath) (val reached : tftypes.Value)
  (rest : tftypes.AttributePath) :
  (1 <= List.length path)%nat ->
  WalkAttributePath config path = (reached, rest, Some ErrInvalidStep) ->
  let out := markComputedNilsAsUnknown config resourceSchema path val in
  (forall config' configVal rest',
     WalkAttributePath config' path = (configVal, rest', None) ->
     tftypes.IsNull configVal = true ->
     out = markComputedNilsAsUnknown config' resourceSchema path val) /\
  (forall attribute,
     Schema_AttributeAtPath resourceSchema path = (attribute, None) ->
     (tfsdk.Computed attribute = true ->
      out = (Some (tftypes.NewValue (tftypes.Type_of val)
                     tftypes.UnknownValue), None)) /\
     (tfsdk.Computed attribute = false -> out = (Some val, None))) /\
  (forall attribute err,
     Schema_AttributeAtPath resourceSchema path = (attribute, Some err) ->
     (Is err ErrPathInsideAtomicAttribute = true -> out = (Some val, None)) /\
     (Is err ErrPathInsideAtomicAttribute = false ->
      exists err', out = (None, Some err') /\ Is err' err = true)).
Proof.
  intros Hlen Hw out. subst out.
  rewrite (mark_invalid_step _ _ _ _ _ _ Hlen Hw). repeat split.
  - intros config' configVal rest' Hw' Hn. symmetry.
    eapply mark_null; eassumption.
  - now apply markBySchema_computed.
  - now apply markBySchema_not_computed.
  - eapply markBySchema_inside_atomic; eassumption.
  - eapply markBySchema_failure; eassumption.
Qed.

End WithLibrary.

End markFacts.

(** ** planResourceChange *)

Module planFacts.
Import errors proto6server.

(** Unfold the function down to the state it threads. *)
Ltac unfold_plan :=
  unfold PlanResourceChange, planResourceChange, planning, markUnknown,
    modifyAttributePlans, modifyResourcePlan, providerMeta, finish,
    or_return, return_if_HasError, Diagnostics_Append, Diagnostics_AddError,
    set_Diagnostics, set_PlannedState, set_RequiresReplace,
    bind, ret, return_, get_resp, set_resp, start,
    LookedUp, config_of, proposed_of, prior_of, lookup_diags,
    schema_of, resource_of, diag.AddError, diag.Append in *.

(** Follow one branch of the function: case on the innermost scrutinee. *)
Ltac split_step :=
  match goal with
  | |- context [match ?x with _ => _ end] =>
      lazymatch x with
      | context [match _ with _ => _ end] => fail
      | _ => destruct x eqn:?
      end
  end.

Ltac run_plan := unfold_plan; simpl; repeat (split_step; simpl in *).

Section WithLibrary.
Context {T : Types} {L : Library}.

(** The marking pass, when it starts, starts first. *)
Lemma marking_first (s : Server) (req : PlanResourceChangeRequest) :
  forall p l1 l2,
    snd (PlanResourceChange s req) = l1 ++ MarkUnknown p :: l2 -> l1 = [].
Proof.
  intros p l1 l2. run_plan; intro H;
    destruct l1 as [|? [|? [|? [|? ?]]]]; simpl in H;
    try discriminate; reflexivity.
Qed.

Lemma no_attribute_pass_before_marking
  (s : Server) (req : PlanResourceChangeRequest) :
  ~ AttributePassBeforeMarking (snd (PlanResourceChange s req)).
Proof.
  intros [l1 [r [l2 [p [l3 H]]]]].
  change (l1 ++ AttributePlanModification r :: l2 ++ MarkUnknown p :: l3)
    with (l1 ++ (AttributePlanModification r :: l2) ++ MarkUnknown p :: l3)
    in H.
  rewrite app_assoc in H. apply marking_first in H.
  destruct l1; discriminate.
Qed.

(** The marking pass starts on the proposed plan, which is then neither
    null nor equal to the prior state. *)
Lemma marking_started (s : Server) (req : PlanResourceChangeRequest) :
  forall p,
    In (MarkUnknown p) (snd (PlanResourceChange s req)) ->
    proposed_of s req = inl p /\ tftypes.IsNull p = false /\
    exists state, prior_of s req = inl state /\ Value_Equal p state = false.
Proof.
  intros p. run_plan; intro H; simpl in H;
    repeat (destruct H as [H|H]; try discriminate); try contradiction;
    injection H as <-;
    match goal with
    | E : negb (tftypes.IsNull ?v) && negb (Value_Equal ?v ?w) = true |- _ =>
        apply andb_true_iff in E as [E1 E2];
        apply negb_true_iff in E1, E2
    end;
    (split; [reflexivity|split; [assumption|eexists; split;
       [reflexivity|assumption]]]).
Qed.

(** The attribute plan modifiers see the plan as it stands after the
    marking pass. *)
Lemma attribute_pass_started (s : Server) (req : PlanResourceChangeRequest) :
  forall r,
    In (AttributePlanModification r) (snd (PlanResourceChange s req)) ->
    exists config plan state,
      config_of s req = inl config /\ proposed_of s req = inl plan /\
      prior_of s req = inl state /\
      tftypes.IsNull (tfsdk.Raw (Plan r)) = false /\
      if negb (tftypes.IsNull plan) && negb (Value_Equal plan state)
      then Transform plan (markComputedNilsAsUnknown config (schema_of s req))
           = inl (tfsdk.Raw (Plan r))
      else tfsdk.Raw (Plan r) = plan.
Proof.
  intros r. run_plan; intro H; simpl in H;
    repeat (destruct H as [H|H]; try discriminate); try contradiction;
    injection H as <-; simpl;
    do 3 eexists; (repeat split; try reflexivity);
    repeat match goal with
    | E : negb _ = true |- _ => apply negb_true_iff in E
    | E : ?x = _ |- context [?x] => rewrite E
    end; simpl; try reflexivity; try assumption.
Qed.

(** A null proposed plan starts neither the marking pass nor the
    attribute plan modifiers. *)
Lemma null_plan_passes (s : Server) (req : PlanResourceChangeRequest) plan :
  proposed_of s req = inl plan -> tftypes.IsNull plan = true ->
  forall p, In p (snd (PlanResourceChange s req)) ->
            exists r, p = ResourcePlanModification r.
Proof.
  intros Hp Hn p Hin. revert Hp Hn Hin.
  run_plan; intros Hp Hn Hin; simpl in Hin;
    try discriminate; try contradiction;
    injection Hp as ->;
    try (rewrite Hn in *; simpl in *; discriminate);
    repeat (destruct Hin as [Hin|Hin]; try discriminate);
    try contradiction;
    subst p; eexists; reflexivity.
Qed.

(** A null proposed plan that no ModifyPlan changes is what the response
    carries. *)
Lemma null_plan_planned (s : Server) (req : PlanResourceChangeRequest)
  config plan state :
  LookedUp s req -> config_of s req = inl config ->
  proposed_of s req = inl plan -> prior_of s req = inl state ->
  tftypes.IsNull plan = true -> KeepsPlan (resource_of s req) ->
  exists dv,
    PlannedState (fst (PlanResourceChange s req)) = Some dv /\
    Encodes (Schema_TerraformType (schema_of s req)) dv plan.
Proof.
  intros Hl Hc Hp Hs Hn Hk. unfold KeepsPlan, Encodes in *.
  revert Hl Hc Hp Hs Hn Hk.
  run_plan; intros [Hl1 Hl2] Hc Hp Hs Hn Hk;
    try congruence;
    injection Hp as ->;
    try (rewrite Hn in *; simpl in *; discriminate);
    eexists; (split; [reflexivity|]);
    try (left; assumption);
    right;
    repeat match goal with
    | E : context [tfsdk.Raw (Plan_ (?m ?rq ?rs))] |- _ =>
        rewrite (Hk m rq rs eq_refl) in E; simpl in E
    end; assumption.
Qed.

(** A value of the request that does not unmarshal ends the function with
    one error diagnostic, before any pass. *)
Lemma config_failure (s : Server) (req : PlanResourceChangeRequest) err :
  LookedUp s req -> config_of s req = inr err ->
  exists resp,
    PlanResourceChange s req = (resp, []) /\
    AbortedWith (looked_up_response s req) "Error parsing configuration" err
      resp.
Proof.
  intros Hl Hc. unfold AbortedWith, looked_up_response. revert Hl Hc.
  run_plan; intros [Hl1 Hl2] Hc; try congruence.
  injection Hc as ->. eexists. split; [reflexivity|].
  exists parse_config_detail. reflexivity.
Qed.

Lemma proposed_failure (s : Server) (req : PlanResourceChangeRequest)
  config err :
  LookedUp s req -> config_of s req = inl config ->
  proposed_of s req = inr err ->
  exists resp,
    PlanResourceChange s req = (resp, []) /\
    AbortedWith (looked_up_response s req) "Error parsing plan" err resp.
Proof.
  intros Hl Hc Hp. unfold AbortedWith, looked_up_response. revert Hl Hc Hp.
  run_plan; intros [Hl1 Hl2] Hc Hp; try congruence.
  injection Hp as ->. eexists. split; [reflexivity|].
  exists parse_plan_detail. reflexivity.
Qed.

Lemma prior_failure (s : Server) (req : PlanResourceChangeRequest)
  config plan err :
  LookedUp s req -> config_of s req = inl config ->
  proposed_of s req = inl plan -> prior_of s req = inr err ->
  exists resp,
    PlanResourceChange s req = (resp, []) /\
    AbortedWith (looked_up_response s req) "Error parsing prior state" err
      resp.
Proof.
  intros Hl Hc Hp Hs. unfold AbortedWith, looked_up_response.
  revert Hl Hc Hp Hs.
  run_plan; intros [Hl1 Hl2] Hc Hp Hs; try congruence.
  injection Hs as ->. eexists. split; [reflexivity|].
  exists parse_state_detail. reflexivity.
Qed.

(** A final plan that does not convert ends the function with one error
    diagnostic; the planned state and the paths stay as they were. *)
Lemma conversion_failure (s : Server) (req : PlanResourceChangeRequest)
  st0 st plan rr err :
  planning s req st0 = (Some (plan, rr), st) ->
  NewDynamicValue (tftypes.Type_of plan) plan = inr err ->
  exists st',
    planResourceChange s req st0 = (None, st') /\
    AbortedWith (resp st) "Error converting response" err (resp st') /\
    passes st' = passes st.
Proof.
  intros Hp Hn. unfold planResourceChange, bind. rewrite Hp. simpl.
  unfold finish, or_return, bind. rewrite Hn.
  unfold Diagnostics_AddError, bind, get_resp, set_resp, return_. simpl.
  eexists. split; [reflexivity|]. split; [|reflexivity].
  exists convert_response_detail. reflexivity.
Qed.

(** After the resource's ModifyPlan the function goes on to convert the
    plan the method left and to store it, whatever the diagnostics the
    method left. *)
Lemma modifyPlan_then_finish
  (s : Server) (req : PlanResourceChangeRequest) (resource : Resource)
  (resourceSchema : Schema) (config state plan : tftypes.Value) st
  m pm st1 dv :
  ModifyPlan resource = Some m ->
  providerMeta s req st = (Some pm, st1) ->
  let handed :=
    {| Plan_ := {| tfsdk.Schema_ := resourceSchema; tfsdk.Raw := plan |};
       RequiresReplace_ := [];
       Diagnostics_ := Diagnostics__ (resp st1) |} in
  let left_ :=
    m {| Config := {| tfsdk.Schema_ := resourceSchema; tfsdk.Raw := config |};
         State := {| tfsdk.Schema_ := resourceSchema; tfsdk.Raw := state |};
         Plan := {| tfsdk.Schema_ := resourceSchema; tfsdk.Raw := plan |};
         ProviderMeta := pm |} handed in
  NewDynamicValue (tftypes.Type_of (tfsdk.Raw (Plan_ left_)))
    (tfsdk.Raw (Plan_ left_)) = inl dv ->
  exists st',
    bind (modifyResourcePlan s req resource resourceSchema config state plan)
      (fun res => finish (fst res) (snd res)) st = (Some tt, st') /\
    PlannedState (resp st') = Some dv /\
    Diagnostics__ (resp st') = Diagnostics_ left_.
Proof.
  intros Hm Hpm handed left_ Hn.
  unfold modifyResourcePlan. rewrite Hm.
  unfold bind at 1 2. rewrite Hpm.
  unfold get_resp, start, set_Diagnostics, bind, set_resp, get_resp, ret,
    finish, or_return. simpl.
  fold handed. fold left_. rewrite Hn.
  unfold set_PlannedState, set_RequiresReplace, bind, get_resp, set_resp, ret.
  simpl. eexists. split; [reflexivity|]. split; reflexivity.
Qed.

(** C4.  The marking pass starts only on a proposed plan that is not null
    and differs from the prior state.  When the proposed plan is null
    neither that pass nor the attribute plan modifiers start, and if the
    request was parsed and the resource's ModifyPlan leaves the plan alone,
    the planned state of the response is a wire form of that null plan,
    whatever the schema. *)
Theorem marking_only_on_changed_plan
  (s : Server) (req : PlanResourceChangeRequest) :
  (forall p,
     In (MarkUnknown p) (snd (PlanResourceChange s req)) ->
     proposed_of s req = inl p /\ tftypes.IsNull p = false /\
     exists state, prior_of s req = inl state /\ Value_Equal p state = false) /\
  (forall plan,
     proposed_of s req = inl plan -> tftypes.IsNull plan = true ->
     (forall p, ~ In (MarkUnknown p) (snd (PlanResourceChange s req))) /\
     (forall r,
        ~ In (AttributePlanModification r) (snd (PlanResourceChange s req))) /\
     (forall config state,
        LookedUp s req -> config_of s req = inl config ->
        prior_of s req = inl state -> KeepsPlan (resource_of s req) ->
        exists dv,
          PlannedState (fst (PlanResourceChange s req)) = Some dv /\
          Encodes (Schema_TerraformType (schema_of s req)) dv plan)).
Proof.
  split; [apply marking_started|].
  intros plan Hp Hn. repeat split.
  - intros p Hin.
    destruct (null_plan_passes s req plan Hp Hn _ Hin) as [r Hr].
    discriminate.
  - intros r Hin.
    destruct (null_plan_passes s req plan Hp Hn _ Hin) as [r' Hr].
    discriminate.
  - intros config state Hl Hc Hs Hk. eapply null_plan_planned; eassumption.
Qed.

(** The attribute plan modifiers start at most once; when they start, no
    pass but the marking pass has started before them. *)
Lemma attribute_pass_once (s : Server) (req : PlanResourceChangeRequest) :
  forall l1 r l2,
    snd (PlanResourceChange s req) = l1 ++ AttributePlanModification r :: l2 ->
    (l1 = [] \/ exists p, l1 = [MarkUnknown p]) /\
    (forall r', ~ In (AttributePlanModification r') l2).
Proof.
  intros l1 r l2. run_plan; intro H;
    destruct l1 as [|? [|? [|? [|? ?]]]]; simpl in H;
    try discriminate;
    repeat match goal with
    | H : _ :: _ = _ :: _ |- _ => injection H as ? H
    end; subst; try discriminate;
    (split; [first [now left | right; eexists; reflexivity]
            |intros r' Hin; simpl in Hin;
             repeat (destruct Hin as [Hin|Hin]; try discriminate);
             try contradiction]).
Qed.

(** C5, as the code has it.  No attribute plan modification starts before
    the marking pass: the marking pass, when it runs, is the first pass;
    the attribute plan modifiers run at most once, with nothing but the
    marking pass before them and no second run after them; and they run
    on the plan the marking pass produced (on the proposed plan when there
    was nothing to mark). *)
Theorem attribute_pass_follows_marking
  (s : Server) (req : PlanResourceChangeRequest) :
  ~ AttributePassBeforeMarking (snd (PlanResourceChange s req)) /\
  (forall p l1 l2,
     snd (PlanResourceChange s req) = l1 ++ MarkUnknown p :: l2 -> l1 = []) /\
  (forall l1 r l2,
     snd (PlanResourceChange s req)
     = l1 ++ AttributePlanModification r :: l2 ->
     (l1 = [] \/ exists p, l1 = [MarkUnknown p]) /\
     (forall r', ~ In (AttributePlanModification r') l2)) /\
  (forall r,
     In (AttributePlanModification r) (snd (PlanResourceChange s req)) ->
     exists config plan state,
       config_of s req = inl config /\ proposed_of s req = inl plan /\
       prior_of s req = inl state /\
       tftypes.IsNull (tfsdk.Raw (Plan r)) = false /\
       if negb (tftypes.IsNull plan) && negb (Value_Equal plan state)
       then Transform plan
              (markComputedNilsAsUnknown config (schema_of s req))
            = inl (tfsdk.Raw (Plan r))
       else tfsdk.Raw (Plan r) = plan).
Proof.
  split; [apply no_attribute_pass_before_marking|].
  split; [apply marking_first|].
  split; [apply attribute_pass_once|].
  apply attribute_pass_started.
Qed.

(** C7.  A config, proposed plan or prior state that does not unmarshal
    ends the function with exactly one more error diagnostic and without a
    pass having started; a final plan that does not convert ends it with
    exactly one more error diagnostic, the planned state and the paths
    left as they were. *)
Theorem conversion_errors_abort
  (s : Server) (req : PlanResourceChangeRequest) :
  (LookedUp s req ->
   (forall err,
      config_of s req = inr err ->
      exists resp,
        PlanResourceChange s req = (resp, []) /\
        AbortedWith (looked_up_response s req) "Error parsing configuration"
          err resp) /\
   (forall config err,
      config_of s req = inl config -> proposed_of s req = inr err ->
      exists resp,
        PlanResourceChange s req = (resp, []) /\
        AbortedWith (looked_up_response s req) "Error parsing plan" err resp) /\
   (forall config plan err,
      config_of s req = inl config -> proposed_of s req = inl plan ->
      prior_of s req = inr err ->
      exists resp,
        PlanResourceChange s req = (resp, []) /\
        AbortedWith (looked_up_response s req) "Error parsing prior state"
          err resp)) /\
  (forall st0 st plan rr err,
     planning s req st0 = (Some (plan, rr), st) ->
     NewDynamicValue (tftypes.Type_of plan) plan = inr err ->
     exists st',
       planResourceChange s req st0 = (None, st') /\
       AbortedWith (resp st) "Error converting response" err (resp st') /\
       passes st' = passes st).
Proof.
  split.
  - intro Hl. repeat split.
    + intros err. now apply config_failure.
    + intros config err. now apply proposed_failure.
    + intros config plan err. now apply prior_failure.
  - intros st0 st plan rr err. apply conversion_failure.
Qed.

End WithLibrary.

End planFacts.

(** ** Witnesses for normaliseRequiresReplace *)

Module NormaliseWitness.
Import Normalise.

(** The general part of C2 at the scenario's paths and the insertion
    sort. *)
Lemma normalise_sorts_and_deduplicates_witness :
  Ascending Sample.AttributePath_String
    (normaliseRequiresReplace Sample.AttributePath_Equal
       (sort.insertionSort (less Sample.AttributePath_String))
       [Scenario.b; Scenario.a; Scenario.a; Scenario.c]).
Proof.
  exact (proj1 (proj2 (proj2
           (proj2 (proj1 NormaliseFacts.normalise_sorts_and_deduplicates
                     _ _ _ _ _)
              (sortFacts.insertionSort_Sorts _ _
                 NormaliseFacts.Sample_less_asym)))
           NormaliseFacts.scenario_EqualByString)).
Defined.

(** C3 at the scenario's paths: normalising twice is normalising once. *)
Lemma normalise_idempotent_witness :
  let normalise :=
    normaliseRequiresReplace Sample.AttributePath_Equal
      (sort.insertionSort (less Sample.AttributePath_String)) in
  normalise (normalise [Scenario.b; Scenario.a; Scenario.a; Scenario.c])
  = normalise [Scenario.b; Scenario.a; Scenario.a; Scenario.c].
Proof.
  exact (proj1 (NormaliseFacts.normalise_idempotent_and_order_independent
                  _ _ _ _ _
                  (sortFacts.insertionSort_Sorts _ _ NormaliseFacts.Sample_less_asym)
                  NormaliseFacts.scenario_EqualByString)).
Defined.

End NormaliseWitness.

(** ** Schema diagnostics (diagnostics.go) *)

Module fwschemaFacts.
Import fwschema.

Section WithPath.
Variable Path : Type.
Variable Path_String : Path -> string.
Variable strconv_Quote : string -> string.

Local Abbreviation always_provider :=
  "This is always an issue with the provider"%string.

Lemma AttributeTypes_detail (p : Path) :
  diag.Detail (AttributeMissingAttributeTypesDiag Path_String strconv_Quote p)
  = (("When validating the schema, an implementation issue was found. "
      ++ always_provider
      ++ " and should be reported to the provider developers." ++ LF ++ LF)
     ++ strconv_Quote (Path_String p)
     ++ " is missing the AttributeTypes or CustomType field on an object Attribute. "
     ++ "One of these fields is required to prevent other unexpected errors or panics.")%string.
Proof.
  unfold AttributeMissingAttributeTypesDiag. simpl.
  now rewrite GoStringFacts.append_assoc.
Qed.

Lemma ElementType_detail (p : Path) :
  diag.Detail (AttributeMissingElementTypeDiag Path_String strconv_Quote p)
  = (("When validating the schema, an implementation issue was found. "
      ++ always_provider
      ++ " and should be reported to the provider developers." ++ LF ++ LF)
     ++ strconv_Quote (Path_String p)
     ++ " is missing the CustomType or ElementType field on a collection Attribute. "
     ++ "One of these fields is required to prevent other unexpected errors or panics.")%string.
Proof.
  unfold AttributeMissingElementTypeDiag. simpl.
  now rewrite GoStringFacts.append_assoc.
Qed.

(** C9.  Both diagnostics have severity error and no path; their detail
    holds the quoted rendering of the path they are given, and the
    sentence that the issue is always with the provider. *)
Theorem missing_type_diagnostics (p : Path) :
  let d := AttributeMissingAttributeTypesDiag Path_String strconv_Quote p in
  let e := AttributeMissingElementTypeDiag Path_String strconv_Quote p in
  (diag.Severity_ d = diag.SeverityError /\ diag.Path_ d = None /\
   GoString.Contains (diag.Detail d) (strconv_Quote (Path_String p)) /\
   GoString.Contains (diag.Detail d) always_provider /\
   diag.HasError [d] = true) /\
  (diag.Severity_ e = diag.SeverityError /\ diag.Path_ e = None /\
   GoString.Contains (diag.Detail e) (strconv_Quote (Path_String p)) /\
   GoString.Contains (diag.Detail e) always_provider /\
   diag.HasError [e] = true).
Proof.
  intros d e. subst d e. split.
  - repeat split.
    + rewrite AttributeTypes_detail. eexists. eexists. reflexivity.
    + exists "When validating the schema, an implementation issue was found. "%string.
      eexists. reflexivity.
  - repeat split.
    + rewrite ElementType_detail. eexists. eexists. reflexivity.
    + exists "When validating the schema, an implementation issue was found. "%string.
      eexists. reflexivity.
Qed.

End WithPath.

(** The text for the path rendered [test], which [%q] puts between double
    quotes as it is. *)
Example AttributeTypes_detail_test :
  diag.Detail
    (AttributeMissingAttributeTypesDiag (fun p : string => p)
       (fun s => Sample.dquote ++ s ++ Sample.dquote)%string "test"%string)
  = ("When validating the schema, an implementation issue was found. This is always an issue with the provider and should be reported to the provider developers."
     ++ LF ++ LF ++ Sample.dquote ++ "test" ++ Sample.dquote
     ++ " is missing the AttributeTypes or CustomType field on an object Attribute. One of these fields is required to prevent other unexpected errors or panics.")%string.
Proof. reflexivity. Qed.

End fwschemaFacts.

(** ** The string attribute *)

Module metaschemaFacts.
Import metaschema.

Lemma Contains_middle (pre s post : string) :
  GoString.Contains (pre ++ s ++ post) s.
Proof.
  exists pre, post. reflexivity.
Qed.

Lemma Contains_end (pre s : string) : GoString.Contains (pre ++ s) s.
Proof.
  exists pre, EmptyString. f_equal.
  induction s as [|c s IH]; simpl; [reflexivity|]. now rewrite <- IH.
Qed.

(** C8.  Whatever the step, the string attribute gives no child and an
    error; the text of the error names the Go type of the step and the
    type of the attribute, and for the four kinds of step on the plain
    attribute it holds the texts the test table expects. *)
Theorem StringAttribute_accepts_no_step
  (a : StringAttribute) (step : tftypes.AttributePathStep)
  (sentinelText : errors.error -> string) :
  fst (ApplyTerraform5AttributePathStep a step) = None /\
  (exists err,
     snd (ApplyTerraform5AttributePathStep a step) = Some err /\
     GoString.Contains (errors.Error sentinelText err) (stepTypeName step) /\
     GoString.Contains (errors.Error sentinelText err)
       (attr_Type_String (GetType a))) /\
  (forall name err,
     snd (ApplyTerraform5AttributePathStep zero (tftypes.AttributeName name))
     = Some err ->
     GoString.Contains (errors.Error sentinelText err)
       "cannot apply AttributePathStep tftypes.AttributeName to basetypes.StringType") /\
  (forall index err,
     snd (ApplyTerraform5AttributePathStep zero (tftypes.ElementKeyInt index))
     = Some err ->
     GoString.Contains (errors.Error sentinelText err)
       "cannot apply AttributePathStep tftypes.ElementKeyInt to basetypes.StringType") /\
  (forall key err,
     snd (ApplyTerraform5AttributePathStep zero (tftypes.ElementKeyString key))
     = Some err ->
     GoString.Contains (errors.Error sentinelText err)
       "cannot apply AttributePathStep tftypes.ElementKeyString to basetypes.StringType") /\
  (forall v err,
     snd (ApplyTerraform5AttributePathStep zero (tftypes.ElementKeyValue v))
     = Some err ->
     GoString.Contains (errors.Error sentinelText err)
       "cannot apply AttributePathStep tftypes.ElementKeyValue to basetypes.StringType").
Proof.
  split; [reflexivity|]. split.
  - eexists. split; [reflexivity|]. cbn [errors.Error]. split.
    + apply Contains_middle.
    + rewrite <- !GoStringFacts.append_assoc. apply Contains_end.
  - repeat split; intros x err H; injection H as <-;
      exists EmptyString, EmptyString; reflexivity.
Qed.

(** The four rows of the test table, on [StringAttribute{}]. *)
Lemma StringAttribute_accepts_no_step_witness :
  GoString.Contains
    (errors.Error Sample.sentinelText
       (errors.errorString
          "cannot apply AttributePathStep tftypes.ElementKeyInt to basetypes.StringType"))
    "cannot apply AttributePathStep tftypes.ElementKeyInt to basetypes.StringType".
Proof.
  exact (proj1 (proj2 (proj2 (proj2
           (StringAttribute_accepts_no_step zero (tftypes.ElementKeyInt 1)
              Sample.sentinelText))))
           1%Z _ eq_refl).
Defined.

End metaschemaFacts.

(** ** The scenarios, run *)

Module ScenarioFacts.
Import errors proto6server Scenario.
#[local] Existing Instance Sample.types.

Local Abbreviation lib := (Sample.library Sample.no_modifiers).
Local Abbreviation request2 :=
  (request (Some config2) (Some plan2) (Some state2)).

(** Unknown-marking: with the computed attribute null in the config and a
    plan that differs from the state, the computed attribute comes out
    unknown and the optional one as proposed. *)
Example unknown_marking_scenario :
  Sample.Transform plan2
    (markComputedNilsAsUnknown (L := lib) config2 schema2) = inl marked2 /\
  PlannedState (fst (run Sample.no_modifiers (server schema2 plain) request2))
  = Some (Some marked2).
Proof. split; reflexivity. Qed.

(** With the computed attribute set in the config the plan is left as
    proposed. *)
Example config_set_scenario :
  PlannedState
    (fst (run Sample.no_modifiers (server schema2 plain)
            (request (Some set2) (Some set2) (Some state2))))
  = Some (Some set2).
Proof. reflexivity. Qed.

(** Replacement ordering: [b], [a] from the attribute plan modifiers and
    [a], [c] from the resource come out as [a], [b], [c]. *)
Example replacement_order_scenario :
  RequiresReplace
    (fst (run modifiers_b_a (server schema2 replaces_a_c) request2))
  = [a; b; c].
Proof. reflexivity. Qed.

(** The end-to-end input: the computed attributes that are null in the
    config, [id] and [tags], come out unknown; nothing is to be replaced. *)
Example end_to_end_scenario :
  fst (run Sample.no_modifiers (server schema3 plain)
         (request (Some config3) (Some plan3) (Some state3)))
  = {| PlannedState :=
         Some (Some (value3 tftypes.UnknownValue (tftypes.str "a")
                       tftypes.UnknownValue));
       Diagnostics__ := []; RequiresReplace := []; PlannedPrivate := [] |}.
Proof. reflexivity. Qed.

(** A position of the plan that the schema cannot resolve ends planning
    with an error diagnostic and the planned state as proposed. *)
Example unresolved_position_scenario :
  let resp :=
    fst (run Sample.no_modifiers (server schema2 plain)
           (request (Some config2) (Some ghost2) (Some state2))) in
  PlannedState resp = Some (Some ghost2) /\
  map (@diag.Summary _) (Diagnostics__ resp) = ["Error modifying plan"%string] /\
  diag.HasError (Diagnostics__ resp) = true.
Proof. repeat split. Qed.

(** An element of a proposed list that the config does not have: the walk
    of the config ends in the invalid step, the schema has the position
    inside an atomic attribute, and the element is left as it is. *)
Example element_inside_atomic_scenario :
  snd (Sample.WalkAttributePath config3 tag0_path) = Some ErrInvalidStep /\
  markComputedNilsAsUnknown (L := lib) config3 schema3 tag0_path
    (tftypes.NewValue tftypes.String (tftypes.str "x"))
  = (Some (tftypes.NewValue tftypes.String (tftypes.str "x")), None).
Proof. split; reflexivity. Qed.

(** The walk of the sample library gives a value or ends in the invalid
    step; it has no other error. *)
Lemma Sample_walk_errors (path : tftypes.AttributePath) :
  forall val,
    snd (Sample.WalkAttributePath val path) = None \/
    snd (Sample.WalkAttributePath val path) = Some ErrInvalidStep.
Proof.
  induction path as [|step path IH]; intro val; simpl.
  - now left.
  - destruct (Sample.ApplyStep val step) as [next|]; [apply IH|now right].
Qed.

(** C1 at the computed attribute of the scenario: null in the config,
    computed in the schema, marked unknown with its type. *)
Lemma markComputedNilsAsUnknown_by_config_witness :
  exists unknown,
    markComputedNilsAsUnknown (L := lib) config2 schema2 computed_path
      null_string = (Some unknown, None) /\
    tftypes.IsKnown unknown = false /\
    tftypes.Type_of unknown = tftypes.Type_of null_string.
Proof.
  assert (Hlen : (1 <= List.length computed_path)%nat) by (simpl; lia).
  exact (proj1 (proj2
           (proj2 (markFacts.markComputedNilsAsUnknown_by_config (L := lib)
                     config2 schema2 computed_path null_string
                     null_string [] None Hlen eq_refl (or_introl eq_refl))
              (or_intror eq_refl) (attribute false false true)))
           eq_refl eq_refl).
Defined.

(** C10 at the same position with a config that is null as a whole: the
    walk ends in the invalid step and the result is that of the null
    config value of the scenario. *)
Lemma markComputedNilsAsUnknown_invalid_step_witness :
  markComputedNilsAsUnknown (L := lib) null2 schema2 computed_path null_string
  = markComputedNilsAsUnknown (L := lib) config2 schema2 computed_path
      null_string.
Proof.
  assert (Hlen : (1 <= List.length computed_path)%nat) by (simpl; lia).
  exact (proj1
           (markFacts.markComputedNilsAsUnknown_invalid_step (L := lib)
              null2 schema2 computed_path null_string null2 computed_path
              Hlen eq_refl)
           config2 null_string [] eq_refl eq_refl).
Defined.

Local Abbreviation deletion :=
  (request (Some null2) (Some null2) (Some state2)).

(** C4 on a deletion: the proposed plan is null, and the planned state of
    the response is a wire form of it. *)
Lemma marking_only_on_changed_plan_witness :
  (forall p,
     ~ In (MarkUnknown p)
         (snd (run Sample.no_modifiers (server schema2 plain) deletion))) /\
  exists dv,
    PlannedState
      (fst (run Sample.no_modifiers (server schema2 plain) deletion))
    = Some dv /\
    Encodes (L := lib) (Sample.Schema_TerraformType schema2) dv null2.
Proof.
  assert (Hl : LookedUp (server schema2 plain) deletion)
    by (split; reflexivity).
  assert (Hk : KeepsPlan (resource_of (server schema2 plain) deletion))
    by (intros m rq rs H; discriminate H).
  pose proof (proj2 (planFacts.marking_only_on_changed_plan (L := lib)
                       (server schema2 plain) deletion)
                null2 eq_refl eq_refl)
    as [H1 [_ H2]].
  exact (conj H1 (H2 null2 state2 Hl eq_refl eq_refl Hk)).
Defined.

(** C5, the claim refuted: the proposed plan is not null, the first pass
    is the marking pass, and the one run of the attribute plan modifiers
    comes after it and is handed the marked plan, which is not the plan
    that was proposed. *)
Lemma attribute_pass_not_before_marking :
  tftypes.IsNull plan2 = false /\
  snd (run Sample.no_modifiers (server schema2 plain) request2)
  = [MarkUnknown plan2; AttributePlanModification modify_request2] /\
  ~ AttributePassBeforeMarking
      (snd (run Sample.no_modifiers (server schema2 plain) request2)) /\
  Sample.Value_Equal (tfsdk.Raw (Plan modify_request2)) plan2 = false.
Proof.
  repeat split.
  apply (planFacts.no_attribute_pass_before_marking (L := lib)).
Qed.

(** C5 as amended, at the same request. *)
Lemma attribute_pass_follows_marking_witness :
  exists config plan state,
    config_of (L := lib) (server schema2 plain) request2 = inl config /\
    proposed_of (L := lib) (server schema2 plain) request2 = inl plan /\
    prior_of (L := lib) (server schema2 plain) request2 = inl state /\
    tftypes.IsNull (tfsdk.Raw (Plan modify_request2)) = false /\
    if negb (tftypes.IsNull plan) && negb (Sample.Value_Equal plan state)
    then Sample.Transform plan
           (markComputedNilsAsUnknown (L := lib) config
              (schema_of (server schema2 plain) request2))
         = inl (tfsdk.Raw (Plan modify_request2))
    else tfsdk.Raw (Plan modify_request2) = plan.
Proof.
  exact (proj2 (proj2 (proj2
           (planFacts.attribute_pass_follows_marking (L := lib)
              (server schema2 plain) request2)))
           modify_request2 (or_intror (or_introl eq_refl))).
Defined.

(** C6, the code at the failing input: the resource's ModifyPlan reports
    an error and rewrites the plan, and the response carries both the
    error and the rewritten plan as planned state. *)
Theorem plan_after_ModifyPlan_error_is_returned :
  let resp := fst (run Sample.no_modifiers (server schema2 failing) request2) in
  Diagnostics__ resp = [oops] /\
  diag.HasError (Diagnostics__ resp) = true /\
  PlannedState resp = Some (Some rewritten2) /\
  Sample.Value_Equal rewritten2 marked2 = false.
Proof. repeat split. Qed.

(** C7 on a config that does not unmarshal. *)
Lemma conversion_errors_abort_witness :
  exists resp,
    run Sample.no_modifiers (server schema2 plain)
      (request None (Some plan2) (Some state2)) = (resp, []) /\
    AbortedWith (L := lib)
      (looked_up_response (server schema2 plain)
         (request None (Some plan2) (Some state2)))
      "Error parsing configuration"
      (errorString "error decoding value: malformed") resp.
Proof.
  assert (Hl : LookedUp (server schema2 plain)
                 (request None (Some plan2) (Some state2)))
    by (split; reflexivity).
  exact (proj1 (proj1 (planFacts.conversion_errors_abort (L := lib)
                         (server schema2 plain)
                         (request None (Some plan2) (Some state2))) Hl)
           (errorString "error decoding value: malformed") eq_refl).
Defined.

(** C7 on a final plan that does not convert. *)
Example unconvertible_plan_scenario :
  let resp :=
    fst (run Sample.no_modifiers (server schema2 unconvertible) request2) in
  PlannedState resp = Some (Some plan2) /\
  map (@diag.Summary _) (Diagnostics__ resp)
  = ["Error converting response"%string] /\
  RequiresReplace resp = [].
Proof. repeat split. Qed.

End ScenarioFacts.

(** ** More on normaliseRequiresReplace *)

Module NormaliseMore.
Import Normalise.

Section WithPath.
Variable AttributePath : Type.
Variable AttributePath_String : AttributePath -> string.
Variable AttributePath_Equal : AttributePath -> AttributePath -> bool.
Variable sort_Slice : list AttributePath -> list AttributePath.

Local Abbreviation Equal := AttributePath_Equal.
Local Abbreviation normalise :=
  (normaliseRequiresReplace AttributePath_Equal sort_Slice).

Lemma dedup_adjacent (l : list AttributePath) : forall prev before x y after,
  prev :: dedup Equal prev l = before ++ x :: y :: after ->
  Equal y x = false.
Proof.
  induction l as [|r l IH]; intros prev before x y after H; simpl in H.
  - destruct before as [|? [|? ?]]; discriminate.
  - destruct (Equal r prev) eqn:E.
    + eapply IH; exact H.
    + destruct before as [|p before]; simpl in H.
      * injection H as -> -> _. exact E.
      * injection H as _ H. eapply IH; exact H.
Qed.

Lemma dedup_length (l : list AttributePath) : forall prev,
  (List.length (dedup Equal prev l) <= List.length l)%nat.
Proof.
  induction l as [|r l IH]; intro prev; simpl; [lia|].
  destruct (Equal r prev); simpl.
  - specialize (IH prev). lia.
  - specialize (IH r). lia.
Qed.

(** X1.  Whatever [sort.Slice] does, an entry of the result never equals
    the entry before it: the loop stores a path only when it is not equal
    to the one stored last. *)
Theorem normalise_adjacent_distinct
  (rs before : list AttributePath) (x y : AttributePath)
  (after : list AttributePath) :
  normalise rs = before ++ x :: y :: after -> Equal y x = false.
Proof.
  unfold normaliseRequiresReplace.
  destruct (List.length rs <? 2)%nat eqn:E.
  - intros ->. apply Nat.ltb_lt in E. rewrite length_app in E. simpl in E. lia.
  - destruct (sort_Slice rs) as [|r0 rs'].
    + intro H. destruct before; discriminate.
    + apply dedup_adjacent.
Qed.

Section WithSort.
Hypothesis sort_Slice_Sorts :
  sort.Sorts (less AttributePath_String) sort_Slice.

(** X2.  For a [sort.Slice] that sorts, the result is never longer than
    the input, and it is empty only for the empty input. *)
Theorem normalise_length (rs : list AttributePath) :
  (List.length (normalise rs) <= List.length rs)%nat /\
  (normalise rs = [] <-> rs = []).
Proof.
  destruct (Nat.lt_ge_cases (List.length rs) 2) as [H|H].
  - rewrite (NormaliseFacts.normalise_short _ _ _ _ H). split; [lia|tauto].
  - destruct (NormaliseFacts.normalise_long _ AttributePath_String Equal _
                sort_Slice_Sorts _ H) as [r0 [rs' [E ->]]].
    destruct (sort_Slice_Sorts rs) as [Hp _].
    apply Permutation_length in Hp. rewrite E in Hp. simpl in Hp.
    pose proof (dedup_length rs' r0). split.
    + simpl. lia.
    + split; [discriminate|]. intros ->. simpl in H. lia.
Qed.

(** X3.  For a [sort.Slice] that sorts, an input whose renderings already
    ascend strictly, on paths whose equality is equality of renderings,
    comes back as it is. *)
Theorem normalise_ascending_unchanged (rs : list AttributePath) :
  EqualByString AttributePath_String AttributePath_Equal rs ->
  Ascending AttributePath_String rs ->
  normalise rs = rs.
Proof.
  intros Hc Ha.
  destruct (Nat.lt_ge_cases (List.length rs) 2) as [H|H].
  - now apply NormaliseFacts.normalise_short.
  - destruct (NormaliseFacts.normalise_long _ AttributePath_String Equal _
                sort_Slice_Sorts _ H) as [r0 [rs' [E ->]]].
    destruct (sort_Slice_Sorts rs) as [Hp Hs].
    assert (El : sort_Slice rs = rs).
    { apply (NormaliseFacts.sorted_Ascending_id _ AttributePath_String);
        [exact Ha|exact Hp|].
      now apply NormaliseFacts.IsSorted_StronglySorted. }
    rewrite El in E. subst rs. f_equal.
    now apply (NormaliseFacts.dedup_Ascending_id _ AttributePath_String).
Qed.

End WithSort.

End WithPath.

(** X1 at the scenario's paths: [b] after [a]. *)
Lemma normalise_adjacent_distinct_witness :
  Sample.AttributePath_Equal Scenario.b Scenario.a = false.
Proof.
  exact (normalise_adjacent_distinct _ Sample.AttributePath_Equal
           (sort.insertionSort (less Sample.AttributePath_String))
           [Scenario.b; Scenario.a; Scenario.a; Scenario.c]
           [] Scenario.a Scenario.b [Scenario.c] eq_refl).
Defined.

(** X2 at the scenario's paths. *)
Lemma normalise_length_witness :
  (List.length
     (normaliseRequiresReplace Sample.AttributePath_Equal
        (sort.insertionSort (less Sample.AttributePath_String))
        [Scenario.b; Scenario.a; Scenario.a; Scenario.c]) <= 4)%nat.
Proof.
  exact (proj1 (normalise_length _ _ Sample.AttributePath_Equal _
                  (sortFacts.insertionSort_Sorts _ _
                     NormaliseFacts.Sample_less_asym)
                  [Scenario.b; Scenario.a; Scenario.a; Scenario.c])).
Defined.

Lemma scenario_abc_EqualByString :
  EqualByString Sample.AttributePath_String Sample.AttributePath_Equal
    [Scenario.a; Scenario.b; Scenario.c].
Proof.
  eapply NormaliseFacts.coherent_incl;
    [|exact NormaliseFacts.scenario_EqualByString].
  intros x [<-|[<-|[<-|[]]]]; simpl; tauto.
Qed.

Lemma scenario_abc_Ascending :
  Ascending Sample.AttributePath_String [Scenario.a; Scenario.b; Scenario.c].
Proof.
  repeat constructor.
Qed.

(** X3 at the sorted paths of the scenario. *)
Lemma normalise_ascending_unchanged_witness :
  normaliseRequiresReplace Sample.AttributePath_Equal
    (sort.insertionSort (less Sample.AttributePath_String))
    [Scenario.a; Scenario.b; Scenario.c]
  = [Scenario.a; Scenario.b; Scenario.c].
Proof.
  exact (normalise_ascending_unchanged _ _ _ _
           (sortFacts.insertionSort_Sorts _ _ NormaliseFacts.Sample_less_asym)
           _ scenario_abc_EqualByString scenario_abc_Ascending).
Defined.

End NormaliseMore.

(** ** More on markComputedNilsAsUnknown *)

Module markMore.
Import errors proto6server.

Section WithLibrary.
Context {T : Types} {L : Library}.

Lemma markBySchema_shape resourceSchema path val :
  markBySchema resourceSchema path val = (Some val, None) \/
  markBySchema resourceSchema path val
  = (Some (tftypes.NewValue (tftypes.Type_of val) tftypes.UnknownValue),
     None) \/
  exists err, markBySchema resourceSchema path val = (None, Some err).
Proof.
  unfold markBySchema.
  destruct (Schema_AttributeAtPath resourceSchema path) as [a [err|]].
  - destruct (Is err ErrPathInsideAtomicAttribute); [now left|].
    right. right. eexists. reflexivity.
  - destruct (tfsdk.Computed a); simpl; [right; now left|now left].
Qed.

Lemma mark_shape config resourceSchema path val :
  markComputedNilsAsUnknown config resourceSchema path val = (Some val, None) \/
  markComputedNilsAsUnknown config resourceSchema path val
  = (Some (tftypes.NewValue (tftypes.Type_of val) tftypes.UnknownValue),
     None) \/
  (exists err,
     markComputedNilsAsUnknown config resourceSchema path val
     = (None, Some err)) \/
  (exists err,
     markComputedNilsAsUnknown config resourceSchema path val
     = (Some val, Some err)).
Proof.
  unfold markComputedNilsAsUnknown.
  destruct (List.length path <? 1)%nat; [now left|].
  destruct (WalkAttributePath config path) as [[configVal rest] err].
  pose proof (markBySchema_shape resourceSchema path val) as Hs.
  destruct err as [err|].
  - destruct err; try (right; right; right; eexists; reflexivity).
    destruct Hs as [H|[H|H]]; [now left|right; now left|].
    right. right. now left.
  - destruct (negb (tftypes.IsNull configVal)); [now left|].
    destruct Hs as [H|[H|H]]; [now left|right; now left|].
    right. right. now left.
Qed.

(** X4.  Whatever the library, the config, the schema and the position:
    when the function returns no error, it returns a value of the type of
    the value it was given, which is that value or the unknown value of
    its type; it returns the zero value only together with an error. *)
Theorem markComputedNilsAsUnknown_keeps_type
  (config : tftypes.Value) (resourceSchema : Schema)
  (path : tftypes.AttributePath) (val : tftypes.Value) :
  let out := markComputedNilsAsUnknown config resourceSchema path val in
  (snd out = None ->
   exists v,
     fst out = Some v /\
     tftypes.Type_of v = tftypes.Type_of val /\
     (v = val \/
      v = tftypes.NewValue (tftypes.Type_of val) tftypes.UnknownValue)) /\
  (fst out = None -> snd out <> None).
Proof.
  intro out. subst out.
  destruct (mark_shape config resourceSchema path val)
    as [H|[H|[[err H]|[err H]]]]; rewrite H; simpl; split;
    try discriminate; intros _.
  - exists val. repeat split. now left.
  - eexists. repeat split. now right.
Qed.

(** X5.  The function is idempotent at a position: given the value it
    returned there without error, it returns that value again. *)
Theorem markComputedNilsAsUnknown_idempotent
  (config : tftypes.Value) (resourceSchema : Schema)
  (path : tftypes.AttributePath) (val v : tftypes.Value) :
  markComputedNilsAsUnknown config resourceSchema path val = (Some v, None) ->
  markComputedNilsAsUnknown config resourceSchema path v = (Some v, None).
Proof.
  unfold markComputedNilsAsUnknown.
  destruct (List.length path <? 1)%nat; [reflexivity|].
  destruct (WalkAttributePath config path) as [[configVal rest] err].
  assert (Hs : markBySchema resourceSchema path val = (Some v, None) ->
               markBySchema resourceSchema path v = (Some v, None)).
  { unfold markBySchema.
    destruct (Schema_AttributeAtPath resourceSchema path) as [a [e|]].
    - destruct (Is e ErrPathInsideAtomicAttribute); [reflexivity|discriminate].
    - destruct (tfsdk.Computed a); simpl; [|reflexivity].
      intro H. injection H as <-. reflexivity. }
  destruct err as [err|].
  - destruct err; try discriminate. exact Hs.
  - destruct (negb (tftypes.IsNull configVal)); [reflexivity|exact Hs].
Qed.

(** X6.  The walk error is compared with the sentinel by identity: any
    other error of the walk, also one that wraps the sentinel, comes back
    as it is, with the value unchanged and the schema not consulted.  The
    schema's error is tested with [errors.Is]: one that wraps the sentinel
    for a path inside an atomic attribute leaves the value unchanged,
    without error. *)
Theorem sentinel_by_identity_and_by_Is
  (config : tftypes.Value) (resourceSchema : Schema)
  (path : tftypes.AttributePath) (val reached : tftypes.Value)
  (rest : tftypes.AttributePath) (werr : option error) :
  (1 <= List.length path)%nat ->
  WalkAttributePath config path = (reached, rest, werr) ->
  (forall err,
     werr = Some err -> err <> ErrInvalidStep ->
     forall otherSchema,
       markComputedNilsAsUnknown config otherSchema path val
       = (Some val, Some err)) /\
  (forall text,
     werr = Some (wrapError text ErrInvalidStep) ->
     Is (wrapError text ErrInvalidStep) ErrInvalidStep = true /\
     markComputedNilsAsUnknown config resourceSchema path val
     = (Some val, Some (wrapError text ErrInvalidStep))) /\
  (forall attribute text,
     werr = Some ErrInvalidStep \/
     (werr = None /\ tftypes.IsNull reached = true) ->
     Schema_AttributeAtPath resourceSchema path
     = (attribute, Some (wrapError text ErrPathInsideAtomicAttribute)) ->
     markComputedNilsAsUnknown config resourceSchema path val
     = (Some val, None)).
Proof.
  intros Hlen Hw.
  assert (Hother : forall err,
            werr = Some err -> err <> ErrInvalidStep ->
            forall otherSchema,
              markComputedNilsAsUnknown config otherSchema path val
              = (Some val, Some err)).
  { intros err -> Hne otherSchema. unfold markComputedNilsAsUnknown.
    apply Nat.ltb_ge in Hlen. rewrite Hlen, Hw.
    destruct err; try reflexivity. now contradiction Hne. }
  split; [exact Hother|]. split.
  - intros text ->. split; [reflexivity|].
    apply (Hother _ eq_refl). discriminate.
  - intros attribute text Hcase Ha.
    assert (E : markComputedNilsAsUnknown config resourceSchema path val
                = markBySchema resourceSchema path val).
    { destruct Hcase as [->|[-> Hn]].
      - eapply markFacts.mark_invalid_step; eassumption.
      - eapply markFacts.mark_null; eassumption. }
    rewrite E. eapply markFacts.markBySchema_inside_atomic; [exact Ha|].
    reflexivity.
Qed.

End WithLibrary.

End markMore.

(** ** More on planResourceChange *)

Module planMore.
Import errors proto6server planWords planFacts.

Section WithLibrary.
Context {T : Types} {L : Library}.

Lemma HasError_app (a b : Diagnostics) :
  diag.HasError (a ++ b) = diag.HasError a || diag.HasError b.
Proof.
  unfold diag.HasError. apply existsb_app.
Qed.

Lemma HasError_AddError (a : Diagnostics) (summary detail : string) :
  diag.HasError
    (a ++ [diag.NewErrorDiagnostic tftypes.AttributePath summary detail])
  = true.
Proof.
  rewrite HasError_app. apply orb_true_r.
Qed.

(** X7.  In every run the passes start in the order marking, attribute
    plan modifiers, resource ModifyPlan, and each starts at most once. *)
Theorem passes_in_order_at_most_once
  (s : Server) (req : PlanResourceChangeRequest) :
  StronglySorted lt (map pass_rank (snd (PlanResourceChange s req))).
Proof.
  run_plan; repeat constructor.
Qed.

Lemma HasError_app_false (a b : Diagnostics) :
  diag.HasError (a ++ b) = false ->
  diag.HasError a = false /\ diag.HasError b = false.
Proof.
  rewrite HasError_app. apply orb_false_iff.
Qed.

(** X8.  When both the attribute plan modifiers and the resource's
    ModifyPlan run, they are given the same configuration, prior state and
    provider meta; the attribute pass left no error diagnostic, and the plan
    ModifyPlan is given is the plan the attribute pass left, under the
    resource's schema. *)
Theorem modifiers_same_view
  (s : Server) (req : PlanResourceChangeRequest)
  (r1 r2 : ModifyPlanRequest) :
  In (AttributePlanModification r1) (snd (PlanResourceChange s req)) ->
  In (ResourcePlanModification r2) (snd (PlanResourceChange s req)) ->
  Config r1 = Config r2 /\ State r1 = State r2 /\
  ProviderMeta r1 = ProviderMeta r2 /\
  exists diags,
    let left_ := SchemaModifyPlan (schema_of s req) r1 (handed r1 diags) in
    diag.HasError (Diagnostics_ left_) = false /\
    Plan r2 = {| tfsdk.Schema_ := schema_of s req;
                 tfsdk.Raw := tfsdk.Raw (Plan_ left_) |}.
Proof.
  unfold handed.
  run_plan; intros H1 H2; simpl in H1, H2;
    repeat (destruct H1 as [H1|H1]; try discriminate); try contradiction;
    repeat (destruct H2 as [H2|H2]; try discriminate); try contradiction;
    injection H1 as <-; injection H2 as <-; simpl;
    (repeat split; try reflexivity).
  all: try (eexists; split; [eassumption|reflexivity]).
Qed.

(** X9.  No path of the response is made up by the server: every path in
    RequiresReplace was put there by the attribute plan modifiers or by the
    resource's ModifyPlan, in a pass that did start. *)
Theorem replaced_paths_come_from_modifiers
  (s : Server) (req : PlanResourceChangeRequest)
  (x : tftypes.AttributePath) :
  sort.Sorts (Normalise.less AttributePath_String) sort_Slice ->
  In x (RequiresReplace (fst (PlanResourceChange s req))) ->
  (exists r diags,
     In (AttributePlanModification r) (snd (PlanResourceChange s req)) /\
     In x (RequiresReplace_
             (SchemaModifyPlan (schema_of s req) r (handed r diags)))) \/
  (exists r m diags,
     In (ResourcePlanModification r) (snd (PlanResourceChange s req)) /\
     ModifyPlan (resource_of s req) = Some m /\
     In x (RequiresReplace_ (m r (handed r diags)))).
Proof.
  intro Hsort. unfold handed.
  assert (Hincl : forall l, incl (normaliseRequiresReplace l) l).
  { intro l. unfold normaliseRequiresReplace.
    eapply NormaliseFacts.normalise_incl. exact Hsort. }
  run_plan; intro Hin; simpl in Hin; try contradiction;
    try apply Hincl in Hin;
    repeat (rewrite ?in_app_iff in Hin; simpl in Hin);
    repeat match goal with
    | H : _ \/ _ |- _ => destruct H as [H|H]
    | H : False |- _ => contradiction
    end.
  all: try (left; do 2 eexists; split; [simpl; eauto|exact Hin]).
  all: try (right; do 3 eexists; split;
            [simpl; eauto|split; [reflexivity|exact Hin]]).
Qed.

(** X10.  planResourceChange ends in one of two ways.  When it returns
    early, the response holds an error diagnostic and its planned state is
    unset or still the proposed state as received.  When it runs to its end,
    the planned state is the encoding of a plan and the paths are a
    normalised list. *)
Theorem outcome_of_planResourceChange
  (s : Server) (req : PlanResourceChangeRequest) :
  let out := planResourceChange s req initial in
  (fst out = None ->
   diag.HasError (Diagnostics__ (resp (snd out))) = true /\
   (PlannedState (resp (snd out)) = None \/
    PlannedState (resp (snd out)) = Some (ProposedNewState req))) /\
  (fst out = Some tt ->
   exists plan dv paths,
     NewDynamicValue (tftypes.Type_of plan) plan = inl dv /\
     PlannedState (resp (snd out)) = Some dv /\
     RequiresReplace (resp (snd out)) = normaliseRequiresReplace paths).
Proof.
  unfold initial.
  run_plan; split; intro H; try discriminate;
    try (split; [first [assumption | apply HasError_AddError]
                |first [now left | now right]]).
  all: try (do 3 eexists; split; [eassumption|split; reflexivity]).
Qed.

(** X11.  Planning a deletion (the proposed plan is null): when the lookups
    leave no error diagnostic and the resource has a ModifyPlan, that call is
    the only pass; it is given the configuration, the prior state and the
    null plan under the resource's schema, with the provider meta, and the
    diagnostics so far.  When the plan it leaves can be encoded, the response
    is that encoding, the diagnostics ModifyPlan left, and its paths
    normalised. *)
Theorem deletion_runs_ModifyPlan
  (s : Server) (req : PlanResourceChangeRequest)
  (config plan state : tftypes.Value)
  (m : ModifyPlanRequest -> ModifyPlanResponse -> ModifyPlanResponse)
  (pm : option (tfsdk.Data Schema)) :
  config_of s req = inl config -> proposed_of s req = inl plan ->
  prior_of s req = inl state -> tftypes.IsNull plan = true ->
  ModifyPlan (resource_of s req) = Some m ->
  diag.HasError
    ((lookup_diags s req ++ resource_diags s req) ++ meta_diags s) = false ->
  ProviderMetaIs s req pm ->
  let r :=
    {| Config := {| tfsdk.Schema_ := schema_of s req; tfsdk.Raw := config |};
       State := {| tfsdk.Schema_ := schema_of s req; tfsdk.Raw := state |};
       Plan := {| tfsdk.Schema_ := schema_of s req; tfsdk.Raw := plan |};
       ProviderMeta := pm |} in
  let left_ :=
    m r (handed r ((lookup_diags s req ++ resource_diags s req)
                   ++ meta_diags s)) in
  snd (PlanResourceChange s req) = [ResourcePlanModification r] /\
  forall dv,
    NewDynamicValue (tftypes.Type_of (tfsdk.Raw (Plan_ left_)))
      (tfsdk.Raw (Plan_ left_)) = inl dv ->
    fst (PlanResourceChange s req)
    = {| PlannedState := Some dv;
         Diagnostics__ := Diagnostics_ left_;
         RequiresReplace := normaliseRequiresReplace (RequiresReplace_ left_);
         PlannedPrivate := [] |}.
Proof.
  intros Hc Hp Hs Hn Hm He Hpm r left_. subst left_ r.
  unfold resource_diags, meta_diags, ProviderMetaIs, handed in *.
  revert Hc Hp Hs Hn Hm He Hpm.
  run_plan; intros Hc Hp Hs Hn Hm He Hpm;
    try discriminate;
    repeat match goal with
    | H : diag.HasError (_ ++ _) = false |- _ =>
        apply HasError_app_false in H; destruct H
    | H : exists _, _ |- _ => destruct H as [? [? ?]]
    | H : inl _ = inl _ |- _ => injection H as ->
    | H : Some _ = Some _ |- _ => injection H as ->
    | H : ?a = inl _, H' : ?a = inl _ |- _ => rewrite H in H'
    | H : ?a = Some _, H' : ?a = Some _ |- _ => rewrite H in H'
    end; subst;
    try congruence;
    try (rewrite Hn in *; simpl in *; discriminate);
    try (repeat match goal with
         | H : diag.HasError (_ ++ _) = true |- _ => rewrite !HasError_app in H
         end;
         repeat match goal with
         | H : diag.HasError ?d = false, H' : context [diag.HasError ?d] |- _ =>
             rewrite H in H'
         end; simpl in *; discriminate).
  all: try (split; [reflexivity|intros dv Hdv; congruence]).
Qed.

End WithLibrary.

End planMore.

(** ** The registry of cancel functions *)

Module registryFacts.
Import registry.

Lemma called_fold (cancels : list CancelFunc) (w : World) :
  called (fold_left (fun w cancel => call cancel w) cancels w)
  = called w ++ cancels /\
  issued (fold_left (fun w cancel => call cancel w) cancels w) = issued w.
Proof.
  revert w. induction cancels as [|c cs IH]; intro w; simpl.
  - now rewrite app_nil_r.
  - destruct (IH (call c w)) as [H1 H2]. rewrite H1, H2. simpl.
    now rewrite <- app_assoc.
Qed.

Lemma Accounted_serve (c : Call) (st : State) :
  Accounted st -> Accounted (snd (serve c st)).
Proof.
  unfold Accounted. destruct st as [s w]. destruct c as [in_|];
    cbn [serve registerContext WithCancel StopProvider cancelRegisteredContexts
         fst snd issued called contextCancels]; intro H.
  - rewrite app_assoc, H, seq_S. reflexivity.
  - destruct (called_fold (contextCancels s) w) as [H1 H2].
    rewrite H1, H2, app_nil_r. exact H.
Qed.

Lemma Accounted_run (calls : list Call) (st : State) :
  Accounted st -> Accounted (snd (run calls st)).
Proof.
  revert st. induction calls as [|c calls IH]; intros st H; simpl; [exact H|].
  pose proof (Accounted_serve c st H) as Hc.
  destruct (serve c st) as [ctxs st']. simpl in Hc.
  specialize (IH st' Hc). destruct (run calls st') as [ctxs' st'']. exact IH.
Qed.

Lemma Accounted_fresh : Accounted fresh.
Proof. reflexivity. Qed.

(** X12.  After any sequence of requests and stops on a new server, every
    cancel function made so far has been called or is in the registry:
    none is lost, none is in both, none twice, and they are called in the
    order they were registered. *)
Theorem cancels_registered_or_called (calls : list Call) :
  let st := snd (run calls fresh) in
  called (snd st) ++ contextCancels (fst st) = seq 0 (issued (snd st)).
Proof.
  exact (Accounted_run calls fresh Accounted_fresh).
Qed.

Lemma issued_serve (c : Call) (st : State) :
  issued (snd st) <= issued (snd (snd (serve c st))) /\
  Forall (fun ctx => exists cancel, In cancel (ends ctx) /\
                                   cancel < issued (snd (snd (serve c st))))
    (fst (serve c st)).
Proof.
  destruct st as [s w]. destruct c as [in_|]; simpl.
  - split; [lia|]. constructor; [|constructor].
    exists (issued w). simpl. split; [now left|lia].
  - destruct (called_fold (contextCancels s) w) as [_ H2]. rewrite H2.
    split; [lia|constructor].
Qed.

Lemma issued_run (calls : list Call) (st : State) :
  issued (snd st) <= issued (snd (snd (run calls st))) /\
  Forall (fun ctx => exists cancel, In cancel (ends ctx) /\
                                   cancel < issued (snd (snd (run calls st))))
    (fst (run calls st)).
Proof.
  revert st. induction calls as [|c calls IH]; intro st; simpl.
  - split; [lia|constructor].
  - destruct (issued_serve c st) as [H1 H2].
    destruct (serve c st) as [ctxs st']. simpl in H1, H2.
    destruct (IH st') as [H3 H4].
    destruct (run calls st') as [ctxs' st'']. simpl in *.
    split; [lia|]. apply Forall_app. split; [|exact H4].
    eapply Forall_impl; [|exact H2]. intros ctx [cancel [Hin Hlt]].
    exists cancel. split; [exact Hin|lia].
Qed.

Lemma Done_In (w : World) (ctx : Context) (cancel : CancelFunc) :
  In cancel (ends ctx) -> In cancel (called w) -> Done w ctx = true.
Proof.
  intros H1 H2. unfold Done. apply existsb_exists. exists cancel.
  split; [exact H1|]. apply existsb_exists. exists cancel.
  split; [exact H2|apply Nat.eqb_refl].
Qed.

Lemma In_called_Done (w : World) (cancel : CancelFunc) :
  existsb (Nat.eqb cancel) (called w) = true <-> In cancel (called w).
Proof.
  rewrite existsb_exists. split.
  - intros [x [Hin Heq]]. apply Nat.eqb_eq in Heq. now subst.
  - intro H. exists cancel. split; [exact H|apply Nat.eqb_refl].
Qed.

(** X13.  StopProvider, after any sequence of requests and stops on a new
    server, leaves the registry empty and every context that was handed to
    a handler done. *)
Theorem stop_cancels_every_context (calls : list Call) :
  let st := StopProvider (snd (run calls fresh)) in
  contextCancels (fst st) = [] /\
  Forall (fun ctx => Done (snd st) ctx = true) (fst (run calls fresh)).
Proof.
  simpl. split; [reflexivity|].
  pose proof (Accounted_run calls fresh Accounted_fresh) as Ha.
  destruct (issued_run calls fresh) as [_ Hf].
  destruct (run calls fresh) as [ctxs [s w]]. unfold Accounted in Ha.
  simpl in *.
  destruct (called_fold (contextCancels s) w) as [H1 H2].
  eapply Forall_impl; [|exact Hf]. intros ctx [cancel [Hin Hlt]].
  eapply Done_In; [exact Hin|]. rewrite H1, Ha. apply in_seq. lia.
Qed.

Lemma run_cons_snd (c : Call) (calls : list Call) (st : State) :
  snd (run (c :: calls) st) = snd (run calls (snd (serve c st))).
Proof.
  simpl. destruct (serve c st) as [ctxs st']. simpl.
  destruct (run calls st') as [ctxs' st'']. reflexivity.
Qed.

Lemma requests_run (ins : list Context) (st : State) :
  called (snd (snd (run (map Request ins) st))) = called (snd st) /\
  issued (snd (snd (run (map Request ins) st)))
  = issued (snd st) + List.length ins /\
  contextCancels (fst (snd (run (map Request ins) st)))
  = contextCancels (fst st) ++ seq (issued (snd st)) (List.length ins).
Proof.
  revert st. induction ins as [|in_ ins IH]; intro st.
  - simpl. rewrite app_nil_r. repeat split. lia.
  - change (map Request (in_ :: ins)) with (Request in_ :: map Request ins).
    rewrite run_cons_snd.
    destruct (IH (snd (serve (Request in_) st))) as [H1 [H2 H3]].
    rewrite H1, H2, H3. destruct st as [s w].
    cbn [serve registerContext WithCancel fst snd issued called
         contextCancels List.length seq].
    repeat split; [lia|]. now rewrite <- app_assoc.
Qed.

Lemma called_after (own : CancelFunc) (es : list Event) :
  forall st,
    spares own es = true ->
    In own (called (snd (after es st))) -> In own (called (snd st)).
Proof.
  induction es as [|e es IH]; intros st Hs Hin; [exact Hin|].
  simpl in Hs. apply andb_true_iff in Hs. destruct Hs as [He Hs].
  specialize (IH (happen st e) Hs Hin). destruct st as [s w].
  destruct e as [in_|cancel]; simpl in IH; [exact IH|].
  apply in_app_or in IH. destruct IH as [IH|[IH|[]]]; [exact IH|].
  subst cancel. now rewrite Nat.eqb_refl in He.
Qed.

(** X14.  Serving requests ends no context: until the next StopProvider,
    whatever requests are served and whatever cancel functions others
    call meanwhile, a context the server handed to a handler is done
    exactly when the caller's context is done.  (The context's own cancel
    function is held by the server alone.) *)
Theorem context_done_with_caller
  (calls : list Call) (in_ : Context) (es : list Event) :
  let st := snd (run calls fresh) in
  let ctx := fst (registerContext in_ st) in
  let later := after es (snd (registerContext in_ st)) in
  spares (issued (snd st)) es = true ->
  Done (snd later) ctx = Done (snd later) in_.
Proof.
  intros st ctx later Hs.
  assert (Ha : Accounted st) by apply Accounted_run, Accounted_fresh.
  assert (Hn : ~ In (issued (snd st)) (called (snd later))).
  { intro Hin. apply (called_after _ _ _ Hs) in Hin.
    clearbody st. destruct st as [s w]. unfold Accounted in Ha.
    simpl in *.
    assert (Hin' : In (issued w) (seq 0 (issued w)))
      by (rewrite <- Ha; apply in_or_app; now left).
    apply in_seq in Hin'. lia. }
  subst ctx. clearbody later. clearbody st. destruct st as [s w].
  unfold Done. cbn [registerContext WithCancel fst snd ends existsb issued] in *.
  replace (existsb (Nat.eqb (issued w)) (called (snd later))) with false;
    [reflexivity|].
  symmetry. apply not_true_is_false. intro H.
  apply In_called_Done in H. exact (Hn H).
Qed.

Local Abbreviation background := {| ends := [] |}.
Local Abbreviation sent := {| ends := [7] |}.
Local Abbreviation stopped := (snd (run [Request background; Stop] fresh)).
Local Abbreviation meanwhile :=
  (after [Serve background; Outside 7] (snd (registerContext sent stopped))).

(** X14 after a request and a stop: a request comes in with a context
    that cancel function 7 ends; another request is served, then the
    caller calls 7.  Both contexts are done. *)
Lemma context_done_with_caller_witness :
  Done (snd meanwhile) (fst (registerContext sent stopped))
  = Done (snd meanwhile) sent.
Proof.
  exact (context_done_with_caller [Request background; Stop] sent
           [Serve background; Outside 7] eq_refl).
Defined.

(** X15.  No request takes a cancel function off the registry: from any
    state, serving requests leaves what was registered in place and adds
    one cancel function per request, also for requests whose handler has
    returned. *)
Theorem registry_grows_with_requests (ins : list Context) (st : State) :
  exists new,
    contextCancels (fst (snd (run (map Request ins) st)))
    = contextCancels (fst st) ++ new /\
    List.length new = List.length ins.
Proof.
  destruct (requests_run ins st) as [_ [_ H]].
  eexists. split; [exact H|apply length_seq].
Qed.

End registryFacts.

(** ** The handler ReadResource *)

Module handlersFacts.
Import handlers.

Section ReadResource.
Variables ResourceType Schema Request Others : Type.
Variables ProtoRequest ProtoResponse : Type.
Variable zero : Others.
Variable TypeName : ProtoRequest -> string.
Variable fromproto6_ReadResourceRequest :
  ProtoRequest -> ResourceType -> Schema -> option Schema ->
  Request * diag.Diagnostics tftypes.AttributePath.
Variable toproto6_ReadResourceResponse :
  ReadResourceResponse Others -> ProtoResponse.

Local Abbreviation ReadResource :=
  (ReadResource zero TypeName fromproto6_ReadResourceRequest
     toproto6_ReadResourceResponse).
Local Abbreviation preparation :=
  (preparation TypeName fromproto6_ReadResourceRequest).
Local Abbreviation converted :=
  (converted TypeName fromproto6_ReadResourceRequest).

(** X16.  ReadResource calls the framework's ReadResource exactly when
    none of the four preparing steps (resource type, resource schema,
    provider-meta schema, conversion of the request) leaves an error
    diagnostic, and hands it the converted request and a response that
    holds the diagnostics of the four steps in order.  When a step leaves
    an error, the response is the empty one with the diagnostics up to and
    including that step's, whatever the framework's ReadResource would
    do. *)
Theorem ReadResource_delegates_without_errors
  (s : FrameworkServer ResourceType Schema Request Others)
  (proto6Req : ProtoRequest) :
  (Forall (fun d => diag.HasError d = false) (preparation s proto6Req) ->
   ReadResource s proto6Req
   = toproto6_ReadResourceResponse
       (FrameworkServer_ReadResource s (converted s proto6Req)
          {| Diagnostics_ := List.concat (preparation s proto6Req);
             others := zero |})) /\
  (forall done d rest,
     preparation s proto6Req = done ++ d :: rest ->
     Forall (fun d => diag.HasError d = false) done ->
     diag.HasError d = true ->
     ReadResource s proto6Req
     = toproto6_ReadResourceResponse
         {| Diagnostics_ := List.concat (done ++ [d]); others := zero |}).
Proof.
  unfold handlers.ReadResource, handlers.preparation, handlers.converted,
    Append, diag.Append.
  destruct (FrameworkServer_ResourceType s (TypeName proto6Req)) as [rt d1].
  destruct (FrameworkServer_ResourceSchema s (TypeName proto6Req)) as [rs d2].
  destruct (FrameworkServer_ProviderMetaSchema s) as [pms d3].
  cbn [fst snd].
  destruct (fromproto6_ReadResourceRequest proto6Req rt rs pms) as [fwReq d4].
  cbn [fst snd Diagnostics_ others app].
  unfold diag.HasError. rewrite !existsb_app.
  split.
  - intro H. inversion H as [|? ? H1 Ha]; subst.
    inversion Ha as [|? ? H2 Hb]; subst.
    inversion Hb as [|? ? H3 Hc]; subst.
    inversion Hc as [|? ? H4 _]; subst.
    unfold diag.HasError in *. rewrite H1, H2, H3, H4.
    cbn. rewrite app_nil_r, !app_assoc. reflexivity.
  - intros done d rest Hp Hdone Hd.
    unfold diag.HasError in *.
    destruct done as [|x1 done]; simpl in Hp; injection Hp as <- Hp.
    { rewrite Hd. cbn. now rewrite app_nil_r. }
    inversion Hdone as [|? ? H1 Hdone1]; subst. rewrite H1.
    destruct done as [|x2 done]; simpl in Hp; injection Hp as <- Hp.
    { rewrite Hd. cbn. now rewrite app_nil_r. }
    inversion Hdone1 as [|? ? H2 Hdone2]; subst. rewrite H2.
    destruct done as [|x3 done]; simpl in Hp; injection Hp as <- Hp.
    { rewrite Hd. cbn. now rewrite app_nil_r, app_assoc. }
    inversion Hdone2 as [|? ? H3 Hdone3]; subst. rewrite H3.
    destruct done as [|x4 done]; simpl in Hp; injection Hp as <- Hp.
    { rewrite Hd. cbn. now rewrite app_nil_r, !app_assoc. }
    destruct done; discriminate Hp.
Qed.

End ReadResource.

End handlersFacts.

(** ** More on the diagnostics of fwschema *)

Module fwschemaMore.
Import fwschema GoSuffix.

Lemma list_ascii_of_string_app (a b : string) :
  list_ascii_of_string (a ++ b)
  = (list_ascii_of_string a ++ list_ascii_of_string b)%list.
Proof.
  induction a as [|c a IH]; simpl; [reflexivity|now rewrite IH].
Qed.

Lemma ending_app (n : nat) (a b : string) :
  (n <= String.length b)%nat -> ending n (a ++ b)%string = ending n b.
Proof.
  intro H. unfold ending.
  rewrite list_ascii_of_string_app, rev_app_distr, firstn_app.
  replace (n - List.length (rev (list_ascii_of_string b)))%nat with 0%nat.
  - simpl. now rewrite app_nil_r.
  - rewrite length_rev.
    assert (E : List.length (list_ascii_of_string b) = String.length b).
    { clear. induction b; simpl; congruence. }
    lia.
Qed.

Lemma ending_differ (n : nat) (pre1 pre2 q1 q2 a b : string) :
  (n <= String.length a)%nat -> (n <= String.length b)%nat ->
  ending n a <> ending n b ->
  (pre1 ++ q1 ++ a <> pre2 ++ q2 ++ b)%string.
Proof.
  intros Ha Hb Hne H. apply Hne.
  rewrite <- !GoStringFacts.append_assoc in H.
  apply (f_equal (ending n)) in H.
  now rewrite !ending_app in H by assumption.
Qed.

Lemma append_inv_head (a b c : string) :
  (a ++ b = a ++ c)%string -> b = c.
Proof.
  induction a as [|x a IH]; simpl; intro H; [exact H|].
  injection H as H. exact (IH H).
Qed.

Lemma append_inv_tail (a b c : string) :
  (a ++ c = b ++ c)%string -> a = b.
Proof.
  intro H. apply (f_equal list_ascii_of_string) in H.
  rewrite !list_ascii_of_string_app in H. apply app_inv_tail in H.
  apply (f_equal string_of_list_ascii) in H.
  now rewrite !string_of_list_ascii_of_string in H.
Qed.

Section WithPath.
Variable Path : Type.
Variable Path_String : Path -> string.
Variable strconv_Quote : string -> string.

(** X17.  The two diagnostics have the same summary and never the same
    detail, whatever the paths and however a path is rendered and quoted:
    the detail alone tells a missing AttributeTypes from a missing
    ElementType. *)
Theorem missing_type_diagnostics_differ (p q : Path) :
  diag.Summary (AttributeMissingAttributeTypesDiag Path_String strconv_Quote p)
  = diag.Summary (AttributeMissingElementTypeDiag Path_String strconv_Quote q)
  /\
  diag.Detail (AttributeMissingAttributeTypesDiag Path_String strconv_Quote p)
  <> diag.Detail (AttributeMissingElementTypeDiag Path_String strconv_Quote q).
Proof.
  split; [reflexivity|].
  rewrite fwschemaFacts.AttributeTypes_detail, fwschemaFacts.ElementType_detail.
  apply (ending_differ 90).
  - vm_compute. lia.
  - vm_compute. lia.
  - vm_compute. discriminate.
Qed.

(** X18.  The path is the only thing a diagnostic varies with: two paths
    get the same diagnostic exactly when their quoted renderings are the
    same. *)
Theorem missing_type_diagnostic_names_path (p q : Path) :
  (AttributeMissingAttributeTypesDiag Path_String strconv_Quote p
   = AttributeMissingAttributeTypesDiag Path_String strconv_Quote q <->
   strconv_Quote (Path_String p) = strconv_Quote (Path_String q)) /\
  (AttributeMissingElementTypeDiag Path_String strconv_Quote p
   = AttributeMissingElementTypeDiag Path_String strconv_Quote q <->
   strconv_Quote (Path_String p) = strconv_Quote (Path_String q)).
Proof.
  split; split; intro H.
  - apply (f_equal (@diag.Detail Path)) in H.
    rewrite !fwschemaFacts.AttributeTypes_detail in H.
    apply append_inv_head in H. exact (append_inv_tail _ _ _ H).
  - unfold AttributeMissingAttributeTypesDiag. now rewrite H.
  - apply (f_equal (@diag.Detail Path)) in H.
    rewrite !fwschemaFacts.ElementType_detail in H.
    apply append_inv_head in H. exact (append_inv_tail _ _ _ H).
  - unfold AttributeMissingElementTypeDiag. now rewrite H.
Qed.

End WithPath.

End fwschemaMore.

(** ** The further properties at the scenarios *)

Module MoreWitness.
Import errors proto6server planWords Scenario.
#[local] Existing Instance Sample.types.

Local Abbreviation lib := (Sample.library Sample.no_modifiers).
Local Abbreviation request2 :=
  (request (Some config2) (Some plan2) (Some state2)).
Local Abbreviation deletion :=
  (request (Some null2) (Some null2) (Some state2)).
Local Abbreviation unknown_string :=
  (tftypes.NewValue tftypes.String tftypes.UnknownValue).

(** X5 at the computed attribute of the scenario: the null string is
    marked unknown, and the unknown string comes back as it is. *)
Lemma markComputedNilsAsUnknown_idempotent_witness :
  markComputedNilsAsUnknown (L := lib) config2 schema2 computed_path
    unknown_string
  = (Some unknown_string, None).
Proof.
  exact (markMore.markComputedNilsAsUnknown_idempotent (L := lib)
           config2 schema2 computed_path null_string unknown_string eq_refl).
Defined.

(** X6 with a walk that wraps the sentinel, on a config that is null as a
    whole: the wrapped error comes back.  And with a schema that wraps its
    sentinel, at a position below the computed attribute: the value comes
    back without error. *)
Lemma sentinel_by_identity_and_by_Is_witness :
  markComputedNilsAsUnknown (L := Wrapped.wraps_walk) null2 schema2
    computed_path null_string
  = (Some null_string,
     Some (wrapError "walking the path: " ErrInvalidStep)) /\
  markComputedNilsAsUnknown (L := Wrapped.wraps_schema) config2 schema2
    Wrapped.inside_computed null_string
  = (Some null_string, None).
Proof.
  assert (H1 : (1 <= List.length computed_path)%nat) by (simpl; lia).
  assert (H2 : (1 <= List.length Wrapped.inside_computed)%nat)
    by (simpl; lia).
  split.
  - exact (proj2
             (proj1 (proj2
                (markMore.sentinel_by_identity_and_by_Is
                   (L := Wrapped.wraps_walk) null2 schema2 computed_path
                   null_string null2 computed_path
                   (Some (wrapError "walking the path: " ErrInvalidStep))
                   H1 eq_refl))
                "walking the path: "%string eq_refl)).
  - exact (proj2 (proj2
             (markMore.sentinel_by_identity_and_by_Is
                (L := Wrapped.wraps_schema) config2 schema2
                Wrapped.inside_computed null_string null_string
                [tftypes.ElementKeyInt 0] (Some ErrInvalidStep)
                H2 eq_refl))
             Sample.zeroAttribute "looking up the attribute: "%string
             (or_introl eq_refl) eq_refl).
Defined.

(** X8 at the scenario, with a resource that has a ModifyPlan: both passes
    are given [modify_request2]. *)
Lemma modifiers_same_view_witness :
  exists diags,
    diag.HasError
      (Diagnostics_
         (Sample.no_modifiers schema2 modify_request2
            (handed modify_request2 diags))) = false /\
    Plan modify_request2
    = {| tfsdk.Schema_ := schema2;
         tfsdk.Raw :=
           tfsdk.Raw
             (Plan_ (Sample.no_modifiers schema2 modify_request2
                       (handed modify_request2 diags))) |}.
Proof.
  exact (proj2 (proj2 (proj2
           (planMore.modifiers_same_view (L := lib)
              (server schema2 replaces_a_c) request2
              modify_request2 modify_request2
              (or_intror (or_introl eq_refl))
              (or_intror (or_intror (or_introl eq_refl))))))).
Defined.

(** X9 at the replacement scenario: [b] is among the paths of the
    response, and the attribute plan modifiers asked for it. *)
Lemma replaced_paths_come_from_modifiers_witness :
  (exists r diags,
     In (AttributePlanModification r)
        (snd (run modifiers_b_a (server schema2 replaces_a_c) request2)) /\
     In b (RequiresReplace_ (modifiers_b_a schema2 r (handed r diags)))) \/
  (exists r m diags,
     In (ResourcePlanModification r)
        (snd (run modifiers_b_a (server schema2 replaces_a_c) request2)) /\
     ModifyPlan replaces_a_c = Some m /\
     In b (RequiresReplace_ (m r (handed r diags)))).
Proof.
  exact (planMore.replaced_paths_come_from_modifiers
           (L := Sample.library modifiers_b_a)
           (server schema2 replaces_a_c) request2 b
           (sortFacts.insertionSort_Sorts _ _ NormaliseFacts.Sample_less_asym)
           (or_intror (or_introl eq_refl))).
Defined.

Local Abbreviation deletion_request :=
  {| Config := {| tfsdk.Schema_ := schema2; tfsdk.Raw := null2 |};
     State := {| tfsdk.Schema_ := schema2; tfsdk.Raw := state2 |};
     Plan := {| tfsdk.Schema_ := schema2; tfsdk.Raw := null2 |};
     ProviderMeta := None |}.

(** X11 on the deletion of the scenario's resource, with a ModifyPlan that
    asks to replace [a] and [c]. *)
Lemma deletion_runs_ModifyPlan_witness :
  snd (run Sample.no_modifiers (server schema2 replaces_a_c) deletion)
  = [ResourcePlanModification deletion_request] /\
  fst (run Sample.no_modifiers (server schema2 replaces_a_c) deletion)
  = {| PlannedState := Some (Some null2);
       Diagnostics__ := [];
       RequiresReplace := [a; c];
       PlannedPrivate := [] |}.
Proof.
  destruct (planMore.deletion_runs_ModifyPlan (L := lib)
              (server schema2 replaces_a_c) deletion null2 null2 state2
              (fun _ resp =>
                 {| Plan_ := Plan_ resp;
                    RequiresReplace_ := (RequiresReplace_ resp ++ [a; c])%list;
                    Diagnostics_ := Diagnostics_ resp |})
              None eq_refl eq_refl eq_refl eq_refl eq_refl eq_refl eq_refl)
    as [H1 H2].
  exact (conj H1 (H2 (Some null2) eq_refl)).
Defined.

End MoreWitness.
